(** * gogettitles: the paginated title search of package [search]

    A shallow embedding of the package's result model and error types
    (client.go), of the OMDB adapter [OmdbSearcher] (omdb_client.go) and of
    the TMDB adapter [TmdbSearcher], with the properties of their
    pagination loop, response classification and result mapping.

    What is modelled and how:
    - Go's [int] is a 64-bit two's complement integer: a [Z] whose
      arithmetic wraps ([int_add], [int_sub]).
    - [string] is Rocq's [string]; [ResultType] is a Go string type.
    - A slice of [SearchResult] is a [list]; the nil slice is [[]].
      [make([]SearchResult, 0, maxResults)] asks the runtime for the whole
      capacity at once: whether the runtime grants a capacity is a
      parameter of [Search] ([makeslice]), and a call whose capacity is
      refused panics and returns nothing ([Panics]).
    - The HTTP client and the JSON decoder are collaborators outside the
      package.  An adapter's client is a function from the request the
      adapter builds to what comes back: a transport error, or a status code
      together with the outcome of decoding the body into the adapter's
      response struct.  Logging is left out.
    - [searchPage] appends to the slice behind a pointer: the slice and the
      log of requests sent are threaded through as explicit state.
    - The [for] loop of [Search] has no bound of its own: it is modelled
      with fuel, [None] meaning that the fuel ran out. *)

From Stdlib Require Import ZArith List String Ascii Bool Lia DecimalString.
Import ListNotations.
Local Open Scope string_scope.
Local Open Scope list_scope.
Local Open Scope Z_scope.

(** ** Go integers *)

Module GoInt.

Definition min_int : Z := - 2 ^ 63.
Definition max_int : Z := 2 ^ 63 - 1.

(** Two's complement wrap-around of a 64-bit [int]. *)
Definition wrap (z : Z) : Z := (z + 2 ^ 63) mod 2 ^ 64 - 2 ^ 63.

Definition in_int (z : Z) : Prop := min_int <= z <= max_int.

Definition int_add (a b : Z) : Z := wrap (a + b).
Definition int_sub (a b : Z) : Z := wrap (a - b).

(** [len] of a slice. *)
Definition len {A : Type} (l : list A) : Z := Z.of_nat (List.length l).

End GoInt.
Export GoInt.

(** ** strconv and fmt *)

Module Strconv.

Inductive convErr : Type := ErrSyntax | ErrRange.

(** [strconv.NumError]. *)
Record NumError : Type := mkNumError {
  Func : string;
  Num : string;
  Err : convErr
}.

Definition digit_of (c : ascii) : option Z :=
  let n := Z.of_N (N_of_ascii c) in
  if (48 <=? n) && (n <=? 57) then Some (n - 48) else None.

(** The value of a run of decimal digits, most significant first. *)
Fixpoint digits_value (s : string) (acc : Z) : option Z :=
  match s with
  | EmptyString => Some acc
  | String c rest =>
      match digit_of c with
      | Some d => digits_value rest (acc * 10 + d)
      | None => None
      end
  end.

(** The integer an optional sign followed by at least one decimal digit
    denotes; this is the fast path of [strconv.Atoi]. *)
Definition parse_decimal (s : string) : option Z :=
  match s with
  | EmptyString => None
  | String c rest =>
      if Ascii.eqb c "-"%char then
        match rest with
        | EmptyString => None
        | _ => option_map Z.opp (digits_value rest 0)
        end
      else if Ascii.eqb c "+"%char then
        match rest with
        | EmptyString => None
        | _ => digits_value rest 0
        end
      else digits_value s 0
  end.

Definition maxUint64 : Z := 2 ^ 64 - 1.

(** The digit loop of [strconv.ParseUint] in base 10 at 64 bits: the value
    and the error it returns.  It gives up with [ErrRange] at the first
    digit that overflows, whatever follows, and with [ErrSyntax] at the
    first byte that is no digit. *)
Fixpoint ParseUint_digits (s : string) (n : Z) : Z * option convErr :=
  match s with
  | EmptyString => (n, None)
  | String c rest =>
      match digit_of c with
      | None => (0, Some ErrSyntax)
      | Some d =>
          if n >=? maxUint64 / 10 + 1 then (maxUint64, Some ErrRange)
          else
            let n1 := n * 10 + d in
            if n1 >? maxUint64 then (maxUint64, Some ErrRange)
            else ParseUint_digits rest n1
      end
  end.

(** [strconv.ParseUint(s, 10, 64)]. *)
Definition ParseUint (s : string) : Z * option convErr :=
  match s with
  | EmptyString => (0, Some ErrSyntax)
  | _ => ParseUint_digits s 0
  end.

(** [strconv.ParseInt(s, 10, 0)] with a 64-bit [int]. *)
Definition ParseInt (s : string) : Z + convErr :=
  match s with
  | EmptyString => inr ErrSyntax
  | String c rest =>
      let neg := Ascii.eqb c "-"%char in
      let digits := if Ascii.eqb c "+"%char || neg then rest else s in
      match ParseUint digits with
      | (_, Some ErrSyntax) => inr ErrSyntax
      | (un, _) =>
          let cutoff := 2 ^ 63 in
          if negb neg && (un >=? cutoff) then inr ErrRange
          else if neg && (un >? cutoff) then inr ErrRange
          else inl (if neg then - un else un)
      end
  end.

(** [strconv.Atoi] with a 64-bit [int]: the fast path for texts of fewer
    than 19 bytes, which cannot overflow ([parse_decimal]), and
    [ParseInt] for the rest. *)
Definition Atoi (s : string) : Z + NumError :=
  let sLen := String.length s in
  if ((0 <? sLen) && (sLen <? 19))%nat then
    match parse_decimal s with
    | Some n => inl n
    | None => inr (mkNumError "Atoi" s ErrSyntax)
    end
  else
    match ParseInt s with
    | inl n => inl n
    | inr e => inr (mkNumError "Atoi" s e)
    end.

(** The decimal rendering that the verb [%d] gives an [int]. *)
Definition itoa (z : Z) : string := NilZero.string_of_int (Z.to_int z).

End Strconv.
Export Strconv.

(** ** client.go: the result model and the error types *)

(** [type ResultType string]. *)
Definition ResultType : Type := string.

Definition Movie : ResultType := "movie".
Definition Series : ResultType := "series".
Definition Episode : ResultType := "episode".

Record SearchResult : Type := mkSearchResult {
  Title : string;
  Year : string;
  ImdbID : string;
  ProviderId : string;
  PosterURL : string;
  Type_ : ResultType
}.

(** The error values that flow through the package.
    - [Errorf format arg]: the value of [fmt.Errorf(format, arg)]; no format
      of the package uses [%w], so nothing is wrapped and [errors.As] can
      only match the value itself;
    - [ForeignError msg]: an error made by net/http or encoding/json;
    - [ConvError e]: a [*strconv.NumError];
    - the three error types that client.go declares. *)
Inductive error : Type :=
| Errorf (format : string) (arg : fmtArg)
| ForeignError (msg : string)
| ConvError (e : NumError)
| InvalidMaxResultsError
| SearchProviderError (errorMessage : string)
| ResultParsingError (reason : string)
(** An argument handed to [fmt.Errorf]. *)
with fmtArg : Type :=
| ArgInt (z : Z)
| ArgString (s : string)
| ArgError (e : error).

(** [errors.As(err, &target)] for a target of each of client.go's types. *)
Definition is_InvalidMaxResultsError (e : error) : bool :=
  match e with InvalidMaxResultsError => true | _ => false end.
Definition is_SearchProviderError (e : error) : bool :=
  match e with SearchProviderError _ => true | _ => false end.
Definition is_ResultParsingError (e : error) : bool :=
  match e with ResultParsingError _ => true | _ => false end.

Module Fmt.

(** Replace the first verb (a [%] and the character after it) of [format]
    by [v].  Every format of the package holds exactly one verb. *)
Fixpoint subst_verb (format v : string) : string :=
  match format with
  | EmptyString => EmptyString
  | String c rest =>
      if Ascii.eqb c "%"%char then
        match rest with
        | EmptyString => String c EmptyString
        | String _ rest' => (v ++ rest')%string
        end
      else String c (subst_verb rest v)
  end.

Section Rendering.

(** [strconv.Quote], which [NumError.Error] applies to the text that failed
    to parse; it is a function of the standard library, left abstract. *)
Variable Quote : string -> string.

Definition convErr_Error (e : convErr) : string :=
  match e with
  | ErrSyntax => "invalid syntax"
  | ErrRange => "value out of range"
  end.

Definition NumError_Error (e : NumError) : string :=
  ("strconv." ++ Func e ++ ": parsing " ++ Quote (Num e) ++ ": "
   ++ convErr_Error (Err e))%string.

(** The [Error()] method. *)
Fixpoint Error (e : error) : string :=
  match e with
  | Errorf format arg =>
      subst_verb format
        match arg with
        | ArgInt z => itoa z
        | ArgString s => s
        | ArgError e' => Error e'
        end
  | ForeignError msg => msg
  | ConvError ne => NumError_Error ne
  | InvalidMaxResultsError => "maxResults must be greater than zero"
  | SearchProviderError errorMessage => errorMessage
  | ResultParsingError reason => reason
  end.

End Rendering.

(** [fmt.Sprintf(format, z)] for a format with one [%d]. *)
Definition Sprintf_d (format : string) (z : Z) : string :=
  subst_verb format (itoa z).

(** [fmt.Sprintf(format, s)] for a format with one [%s]. *)
Definition Sprintf_s (format : string) (s : string) : string :=
  subst_verb format s.

End Fmt.

(** ** net/http: header keys *)

Module Http.

(** [validHeaderFieldByte]: the token bytes of RFC 7230. *)
Definition validHeaderFieldByte (c : ascii) : bool :=
  let n := N_of_ascii c in
  ((48 <=? n) && (n <=? 57) || (65 <=? n) && (n <=? 90) || (97 <=? n) && (n <=? 122)
   || existsb (N.eqb n) [33; 35; 36; 37; 38; 39; 42; 43; 45; 46; 94; 95; 96; 124; 126])%N.

Fixpoint all_valid (s : string) : bool :=
  match s with
  | EmptyString => true
  | String c rest => validHeaderFieldByte c && all_valid rest
  end.

(** The casing loop of [canonicalMIMEHeaderKey]: upper case at the start
    and after a hyphen, lower case elsewhere. *)
Fixpoint canonical_case (s : string) (upper : bool) : string :=
  match s with
  | EmptyString => EmptyString
  | String c rest =>
      let n := N_of_ascii c in
      let c' :=
        if (upper && (97 <=? n) && (n <=? 122))%N then ascii_of_N (n - 32)
        else if (negb upper && (65 <=? n) && (n <=? 90))%N then ascii_of_N (n + 32)
        else c in
      String c' (canonical_case rest (Ascii.eqb c' "-"%char))
  end.

(** [textproto.CanonicalMIMEHeaderKey]: a key with a byte that is no token
    byte is left alone. *)
Definition CanonicalMIMEHeaderKey (s : string) : string :=
  if all_valid s then canonical_case s true else s.

(** [Header.Add]: the header lines in the order they were added, each under
    its canonical key. *)
Definition Header_Add (h : list (string * string)) (key value : string)
  : list (string * string) :=
  h ++ [(CanonicalMIMEHeaderKey key, value)].

End Http.

(** ** The collaborators: context, request, client *)

(** [context.Context], as far as the tests build one. *)
Inductive Context : Type :=
| Background
| WithCancel (parent : Context) (cancelled : bool)
| WithTimeout (parent : Context) (nanoseconds : Z).

(** The request an adapter hands to [client.Do]: [params] are the
    [url.Values] in the order they were added ([Encode] sorts them by key
    on the wire), [header] the header lines added. *)
Record Request : Type := mkRequest {
  req_ctx : Context;
  req_method : string;
  req_url : string;
  req_params : list (string * string);
  req_header : list (string * string)
}.

(** What comes back for a request whose transport succeeded: the status code
    and the outcome of [json.NewDecoder(resp.Body).Decode] into the
    adapter's response struct [B]. *)
Record Response (B : Type) : Type := mkResponse {
  StatusCode : Z;
  Body : error + B
}.
Arguments mkResponse {B} StatusCode Body.
Arguments StatusCode {B} r.
Arguments Body {B} r.

(** [client.Do]: a transport error (cancellation and deadline included) or a
    response. *)
Definition Client (B : Type) : Type := Request -> error + Response B.

Definition StatusOK : Z := 200.
Definition MethodGet : string := "GET".

(** The state a call of [Search] owns: the slice behind [&results] and the
    requests sent so far, oldest first. *)
Record State : Type := mkState {
  results : list SearchResult;
  sent : list Request
}.

(** ** The pagination loop of [Search]

    [OmdbSearcher.Search] and [TmdbSearcher.Search] are the same text up to
    the receiver; the loop is written once over the receiver's
    [searchPage]. *)

Section Pagination.

(** Whether the runtime grants [make([]SearchResult, 0, cap)].  Past the
    allocator's limit [make] panics ("makeslice: cap out of range"), and
    short of memory the program dies: either way the call returns
    nothing. *)
Variable makeslice : Z -> bool.

(** [searchPage maxResults pageNumber] on the state: the pair it returns and
    the state it leaves. *)
Variable searchPage : Z -> Z -> State -> (bool * option error) * State.

(** [for len(results) < maxResults { ... }].  [inl err] is [return nil, err]
    from inside the loop, [inr tt] is falling out of it. *)
Fixpoint Search_loop (fuel : nat) (maxResults pageNumber : Z) (st : State)
  : option ((error + unit) * State) :=
  match fuel with
  | O => None
  | S fuel' =>
      if len (results st) <? maxResults then
        match searchPage (int_sub maxResults (len (results st))) pageNumber st with
        | ((_, Some err), st') => Some (inl err, st')
        | ((nextPageExists, None), st') =>
            if negb nextPageExists then Some (inr tt, st')
            else Search_loop fuel' maxResults (int_add pageNumber 1) st'
        end
      else Some (inr tt, st)
  end.

(** What a call of [Search] gives back: the slice, the error, and the
    requests it sent. *)
Record Outcome : Type := mkOutcome {
  returned : list SearchResult;
  err : option error;
  requests : list Request
}.

(** How a call of [Search] ends: it panics in [make], or it returns. *)
Inductive Run : Type :=
| Panics
| Returns (o : Outcome).

Definition Search_with (fuel : nat) (maxResults : Z) : option Run :=
  if maxResults <=? 0 then
    Some (Returns
            (mkOutcome []
               (Some (Errorf "invalid value for maxResults: %d" (ArgInt maxResults))) []))
  else if negb (makeslice maxResults) then Some Panics
  else
    match Search_loop fuel maxResults 1 (mkState [] []) with
    | None => None
    | Some (inl e, st) => Some (Returns (mkOutcome [] (Some e) (sent st)))
    | Some (inr _, st) => Some (Returns (mkOutcome (results st) None (sent st)))
    end.

End Pagination.

(** ** The OMDB adapter: [OmdbSearcher] (omdb_client.go) *)

Module Omdb.

Record OmdbConstants : Type := mkOmdbConstants {
  baseURL : string;
  apiKeyParameter : string;
  searchParameter : string;
  pageParameter : string
}.

Definition omdbConstants : OmdbConstants :=
  mkOmdbConstants "https://www.omdbapi.com" "apiKey" "s" "page".

(** One element of the response's [Search] array. *)
Record omdbItem : Type := mkOmdbItem {
  item_Title : string;
  item_Year : string;
  item_ImdbID : string;
  item_PosterURL : string;
  item_Type : ResultType
}.

(** The anonymous struct [omdbResponse]; a key missing from the body leaves
    its field at the zero value. *)
Record omdbResponse : Type := mkOmdbResponse {
  Result : list omdbItem;
  TotalResults : string;
  Error : string
}.

Record OmdbSearcher : Type := NewOmdbSearcher {
  apiKey : string;
  client : Client omdbResponse
}.

(** The request of [searchPage]; [url.Parse] of the constant base URL and
    [http.NewRequestWithContext] with a valid method cannot fail. *)
Definition request (os : OmdbSearcher) (ctx : Context) (query : string)
  (pageNumber : Z) : Request :=
  mkRequest ctx MethodGet (baseURL omdbConstants)
    [ (apiKeyParameter omdbConstants, apiKey os);
      (searchParameter omdbConstants, query);
      (pageParameter omdbConstants, Fmt.Sprintf_d "%d" pageNumber) ]
    [].

Definition convert (result : omdbItem) : SearchResult :=
  mkSearchResult (item_Title result) (item_Year result) (item_ImdbID result)
    "" (item_PosterURL result) (item_Type result).

(** [for _, result := range omdbResponse.Result { ... }]: the final value of
    [maxResults] and of [*results]. *)
Fixpoint range_Result (items : list omdbItem) (maxResults : Z)
  (results : list SearchResult) : Z * list SearchResult :=
  match items with
  | [] => (maxResults, results)
  | result :: rest =>
      let maxResults := int_sub maxResults 1 in
      if maxResults <? 0 then (maxResults, results)
      else range_Result rest maxResults (results ++ [convert result])
  end.

Definition searchPage (os : OmdbSearcher) (ctx : Context) (query : string)
  (maxResults pageNumber : Z) (st : State) : (bool * option error) * State :=
  if maxResults <=? 0 then
    ((false, Some (Errorf "invalid value for maxResults: %d" (ArgInt maxResults))), st)
  else
    let req := request os ctx query pageNumber in
    let st := mkState (results st) (sent st ++ [req]) in
    match client os req with
    | inl err => ((false, Some err), st)
    | inr resp =>
        match Body resp with
        | inl err => ((false, Some err), st)
        | inr omdbResponse =>
            if String.eqb (Error omdbResponse) "Movie not found!" then
              ((false, None), st)
            else if negb (String.eqb (Error omdbResponse) "") then
              ((false,
                Some (Errorf "OMDB API request failed with error: %s"
                        (ArgString (Error omdbResponse)))), st)
            else
              let '(maxResults, results') :=
                range_Result (Result omdbResponse) maxResults (results st) in
              let st := mkState results' (sent st) in
              match Atoi (TotalResults omdbResponse) with
              | inr err =>
                  ((false,
                    Some (Errorf "failed to convert totalResults to int: %v"
                            (ArgError (ConvError err)))), st)
              | inl totalResults =>
                  if (len results' <? totalResults) && (maxResults >? 0) then
                    ((true, None), st)
                  else ((false, None), st)
              end
        end
    end.

Definition Search (makeslice : Z -> bool) (fuel : nat) (os : OmdbSearcher)
  (ctx : Context) (query : string) (maxResults : Z) : option Run :=
  Search_with makeslice (searchPage os ctx query) fuel maxResults.

End Omdb.

(** ** The TMDB adapter: [TmdbSearcher] *)

Module Tmdb.

Record TmdbConstants : Type := mkTmdbConstants {
  baseURL : string;
  apiVersion : string;
  searchEndpoint : string;
  searchType : string;
  searchParameter : string;
  pageParameter : string
}.

Definition tmdbConstants : TmdbConstants :=
  mkTmdbConstants "https://api.themoviedb.org" "3" "search" "multi" "query" "page".

(** One element of the response's [results] array. *)
Record tmdbItem : Type := mkTmdbItem {
  item_Title : string;
  item_Name : string;
  item_Year : string;
  item_ImdbID : string;
  item_PosterURL : string;
  item_Type : string;
  item_TmdbId : Z
}.

(** The anonymous struct [tmdbResponse]; a key missing from the body leaves
    its field at the zero value ([false] for [Success]). *)
Record tmdbResponse : Type := mkTmdbResponse {
  Result : list tmdbItem;
  TotalResults : Z;
  TotalPages : Z;
  Success : bool;
  StatusMessage : string
}.

Record TmdbSearcher : Type := NewTmdbSearcher {
  apiKey : string;
  client : Client tmdbResponse
}.

(** [url.JoinPath] on a base without a trailing slash and clean elements. *)
Definition JoinPath (base : string) (elem : list string) : string :=
  fold_left (fun u e => (u ++ "/" ++ e)%string) elem base.

(** The request of [searchPage]; neither [url.JoinPath], [url.Parse] nor
    [http.NewRequestWithContext] can fail on the constants. *)
Definition request (os : TmdbSearcher) (ctx : Context) (query : string)
  (pageNumber : Z) : Request :=
  mkRequest ctx MethodGet
    (JoinPath (baseURL tmdbConstants)
       [apiVersion tmdbConstants; searchEndpoint tmdbConstants; searchType tmdbConstants])
    [ (searchParameter tmdbConstants, query);
      (pageParameter tmdbConstants, Fmt.Sprintf_d "%d" pageNumber) ]
    (Http.Header_Add
       (Http.Header_Add [] "Authorization" (Fmt.Sprintf_s "Bearer %s" (apiKey os)))
       "accept" "application/json").

(** [switch result.Type]: [None] is the [default] branch, which [continue]s. *)
Definition resultType_of (native : string) : option ResultType :=
  if String.eqb native "movie" then Some Movie
  else if String.eqb native "tv" then Some Series
  else None.

Definition resultTitle_of (result : tmdbItem) : string :=
  if negb (String.eqb (item_Title result) "") then item_Title result
  else item_Name result.

Definition convert (result : tmdbItem) (resultType : ResultType) : SearchResult :=
  mkSearchResult (resultTitle_of result) (item_Year result) (item_ImdbID result)
    (Fmt.Sprintf_d "%d" (item_TmdbId result)) (item_PosterURL result) resultType.

(** [for _, result := range tmdbResponse.Result { ... }]: the final value of
    [maxResults] and of [*results]. *)
Fixpoint range_Result (items : list tmdbItem) (maxResults : Z)
  (results : list SearchResult) : Z * list SearchResult :=
  match items with
  | [] => (maxResults, results)
  | result :: rest =>
      match resultType_of (item_Type result) with
      | None => range_Result rest maxResults results
      | Some resultType =>
          let maxResults := int_sub maxResults 1 in
          if maxResults <? 0 then (maxResults, results)
          else range_Result rest maxResults (results ++ [convert result resultType])
      end
  end.

Definition searchPage (os : TmdbSearcher) (ctx : Context) (query : string)
  (maxResults pageNumber : Z) (st : State) : (bool * option error) * State :=
  if maxResults <=? 0 then
    ((false, Some (Errorf "invalid value for maxResults: %d" (ArgInt maxResults))), st)
  else
    let req := request os ctx query pageNumber in
    let st := mkState (results st) (sent st ++ [req]) in
    match client os req with
    | inl err => ((false, Some err), st)
    | inr resp =>
        match Body resp with
        | inl err => ((false, Some err), st)
        | inr tmdbResponse =>
            if negb (StatusCode resp =? StatusOK)
               || (negb (Success tmdbResponse)
                   && negb (String.eqb (StatusMessage tmdbResponse) ""))
            then
              ((false,
                Some (Errorf "search request failed: %s"
                        (ArgString (StatusMessage tmdbResponse)))), st)
            else
              let '(maxResults, results') :=
                range_Result (Result tmdbResponse) maxResults (results st) in
              let st := mkState results' (sent st) in
              if (pageNumber <? TotalPages tmdbResponse) && (maxResults >? 0) then
                ((true, None), st)
              else ((false, None), st)
        end
    end.

Definition Search (makeslice : Z -> bool) (fuel : nat) (os : TmdbSearcher)
  (ctx : Context) (query : string) (maxResults : Z) : option Run :=
  Search_with makeslice (searchPage os ctx query) fuel maxResults.

End Tmdb.

(** ** Vocabulary of the properties *)

(** The value [maxResults] holds after a [range] loop that met [k] items of
    a mapped type, entered with [m]. *)
Definition remaining_after (m k : Z) : Z := if k <=? m then m - k else -1.

(** The page numbers of [n] successive iterations starting at [p]: each is
    the [pageNumber++] of the one before. *)
Fixpoint pages_from (p : Z) (n : nat) : list Z :=
  match n with
  | O => []
  | S n' => p :: pages_from (int_add p 1) n'
  end.

(** Pages 1 to [n]. *)
Definition page_numbers (n : nat) : list Z := map Z.of_nat (seq 1 n).

(** A provider that serves a corpus in pages of [size] items: the items of
    page [p], and the number of pages a caller can ask for (page 1 exists
    even for an empty corpus). *)
Definition page_slice {A : Type} (corpus : list A) (size : nat) (p : Z) : list A :=
  firstn size (skipn (Z.to_nat (p - 1) * size) corpus).

Definition total_pages (T size : nat) : nat := (T + size - 1) / size.

Definition num_pages (T size : nat) : nat := Nat.max 1 (total_pages T size).

Module OmdbSpec.
Import Omdb.

Definition notFound : string := "Movie not found!".

(** What page [pageNumber] contributes to the results of a call, quota
    aside: the items of a decoded response that is neither a failure nor the
    not-found signal. *)
Definition page_results (os : OmdbSearcher) (ctx : Context) (query : string)
  (pageNumber : Z) : list SearchResult :=
  match client os (request os ctx query pageNumber) with
  | inr resp =>
      match Body resp with
      | inr r => if String.eqb (Error r) notFound then [] else map convert (Result r)
      | inl _ => []
      end
  | inl _ => []
  end.

(** The provider reports its totals honestly: it holds [corpus] for the
    query, serves it in pages of [size] items, and every page states the
    size of the corpus in [totalResults]; for an empty corpus it may answer
    with the not-found signal instead. *)
Definition honest (corpus : list omdbItem) (size : nat) (os : OmdbSearcher)
  (ctx : Context) (query : string) : Prop :=
  (0 < size)%nat /\
  forall p, 1 <= p <= Z.of_nat (num_pages (List.length corpus) size) ->
    exists status r,
      client os (request os ctx query p) = inr (mkResponse status (inr r)) /\
      ((Error r = "" /\ Result r = page_slice corpus size p /\
        Atoi (TotalResults r) = inl (len corpus))
       \/ (corpus = [] /\ Error r = notFound)).

(** An optional sign and at least one decimal digit, and nothing else. *)
Definition is_digit (c : ascii) : bool :=
  let n := N_of_ascii c in ((48 <=? n) && (n <=? 57))%N.

Fixpoint all_digits (s : string) : bool :=
  match s with
  | EmptyString => true
  | String c rest => is_digit c && all_digits rest
  end.

Definition decimal_integer_string (s : string) : bool :=
  match s with
  | EmptyString => false
  | String c rest =>
      if Ascii.eqb c "-"%char || Ascii.eqb c "+"%char then
        negb (String.eqb rest "") && all_digits rest
      else all_digits s
  end.

End OmdbSpec.

Module TmdbSpec.
Import Tmdb.

(** The canonical results of a run of items: those of a mapped type, in
    order. *)
Definition mapped (items : list tmdbItem) : list SearchResult :=
  flat_map (fun result =>
              match resultType_of (item_Type result) with
              | Some resultType => [convert result resultType]
              | None => []
              end) items.

(** What page [pageNumber] contributes to the results of a call, quota
    aside. *)
Definition page_results (os : TmdbSearcher) (ctx : Context) (query : string)
  (pageNumber : Z) : list SearchResult :=
  match client os (request os ctx query pageNumber) with
  | inr resp =>
      match Body resp with
      | inr r => mapped (Result r)
      | inl _ => []
      end
  | inl _ => []
  end.

(** The provider reports its totals honestly: it holds [corpus] for the
    query, serves it in pages of [size] items with status 200 and no failure
    signal, and every page states the size of the corpus in [total_results]
    and the number of pages in [total_pages]. *)
Definition honest (corpus : list tmdbItem) (size : nat) (os : TmdbSearcher)
  (ctx : Context) (query : string) : Prop :=
  (0 < size)%nat /\
  Z.of_nat (num_pages (List.length corpus) size) <= max_int /\
  forall p, 1 <= p <= Z.of_nat (num_pages (List.length corpus) size) ->
    exists r,
      client os (request os ctx query p) = inr (mkResponse StatusOK (inr r)) /\
      Result r = page_slice corpus size p /\
      TotalResults r = len corpus /\
      TotalPages r = Z.of_nat (total_pages (List.length corpus) size) /\
      (Success r = true \/ StatusMessage r = "").

End TmdbSpec.

(** ** Fixtures: the clients of the package's tests *)

Module Fixtures.

(** The page number a request asks for. *)
Definition page_of (r : Request) : string :=
  match req_params r with
  | [_; _; (_, p)] => p
  | [_; (_, p)] => p
  | _ => ""
  end.

Definition omdb_item (n : string) (ty : string) : Omdb.omdbItem :=
  Omdb.mkOmdbItem n "1999" ("tt" ++ n)%string "N/A" ty.

Definition tmdb_item (n : string) (ty : string) (id : Z) : Tmdb.tmdbItem :=
  Tmdb.mkTmdbItem n "" "1999-03-31" "" ("/" ++ n ++ ".jpg")%string ty id.

Definition testAPIKey : string := "testkey".

(** The runtime of linux/amd64 for the 96 bytes of a [SearchResult] (six
    strings): [makeslice] refuses a capacity whose size in bytes is past
    [maxAlloc], 2^48. *)
Definition makeslice_amd64 (cap : Z) : bool := (0 <=? cap) && (96 * cap <=? 2 ^ 48).

(** A decoded body behind status 200. *)
Definition ok {B : Type} (body : B) : error + Response B :=
  inr (mkResponse StatusOK (inr body)).

(** OMDB: six titles served three to a page. *)
Definition omdb_corpus : list Omdb.omdbItem :=
  [ omdb_item "a" "movie"; omdb_item "b" "series"; omdb_item "c" "movie";
    omdb_item "d" "movie"; omdb_item "e" "episode"; omdb_item "f" "movie" ].

Definition omdb_two_pages : Client Omdb.omdbResponse := fun r =>
  if String.eqb (page_of r) "1" then
    ok (Omdb.mkOmdbResponse (page_slice omdb_corpus 3 1) "6" "")
  else if String.eqb (page_of r) "2" then
    ok (Omdb.mkOmdbResponse (page_slice omdb_corpus 3 2) "6" "")
  else ok (Omdb.mkOmdbResponse [] "" "Movie not found!").

Definition omdb_paginated : Omdb.OmdbSearcher :=
  Omdb.NewOmdbSearcher testAPIKey omdb_two_pages.

(** OMDB: a first page of three titles that announces six, and the
    not-found body for every page after it. *)
Definition omdb_short_of_total : Omdb.OmdbSearcher :=
  Omdb.NewOmdbSearcher testAPIKey
    (fun r =>
       if String.eqb (page_of r) "1" then
         ok (Omdb.mkOmdbResponse (page_slice omdb_corpus 3 1) "6" "")
       else ok (Omdb.mkOmdbResponse [] "" "Movie not found!")).

(** OMDB: the not-found body of [TestOmdbSearcher_Search_NotFound]. *)
Definition omdb_not_found : Omdb.OmdbSearcher :=
  Omdb.NewOmdbSearcher testAPIKey
    (fun _ => ok (Omdb.mkOmdbResponse [] "" "Movie not found!")).



(** OMDB: a page whose only entry has the native type "game". *)
Definition omdb_game : Omdb.OmdbSearcher :=
  Omdb.NewOmdbSearcher testAPIKey
    (fun _ => ok (Omdb.mkOmdbResponse [omdb_item "g" "game"] "1" "")).

(** OMDB: two titles and no [totalResults] key. *)
Definition omdb_no_total : Omdb.OmdbSearcher :=
  Omdb.NewOmdbSearcher testAPIKey
    (fun _ => ok (Omdb.mkOmdbResponse
                    [omdb_item "a" "movie"; omdb_item "b" "movie"] "" "")).

(** The body [{"invalid_json":] of the ResultParsingError tests: the decoder
    gives up at the end of the input. *)
Definition decode_failure : error := ForeignError "unexpected EOF".

Definition omdb_bad_json : Omdb.OmdbSearcher :=
  Omdb.NewOmdbSearcher testAPIKey (fun _ => inr (mkResponse StatusOK (inl decode_failure))).

Definition tmdb_bad_json : Tmdb.TmdbSearcher :=
  Tmdb.NewTmdbSearcher testAPIKey (fun _ => inr (mkResponse StatusOK (inl decode_failure))).

(** TMDB: a movie, a person and a show on the single page of the corpus;
    the body has no [success] key. *)
Definition tmdb_corpus : list Tmdb.tmdbItem :=
  [ tmdb_item "a" "movie" 11; tmdb_item "b" "person" 12; tmdb_item "c" "tv" 13 ].

Definition tmdb_one_page : Tmdb.TmdbSearcher :=
  Tmdb.NewTmdbSearcher testAPIKey
    (fun _ => ok (Tmdb.mkTmdbResponse tmdb_corpus 3 1 false "")).

(** TMDB: the body of [TestTmdbSearcher_Search_NotAuthorized], status 401. *)
Definition tmdb_not_authorized : Tmdb.TmdbSearcher :=
  Tmdb.NewTmdbSearcher testAPIKey
    (fun _ => inr (mkResponse 401
                     (inr (Tmdb.mkTmdbResponse [] 0 0 false
                             "Invalid API key: You must be granted a valid key.")))).

End Fixtures.

(** ** Vocabulary of the further properties *)

Module DecimalValue.

(** The number a run of decimal digits denotes, most significant digit
    first, on top of [acc]. *)
Fixpoint uint_val (d : Decimal.uint) (acc : Z) : Z :=
  match d with
  | Decimal.Nil => acc
  | Decimal.D0 d => uint_val d (10 * acc)
  | Decimal.D1 d => uint_val d (10 * acc + 1)
  | Decimal.D2 d => uint_val d (10 * acc + 2)
  | Decimal.D3 d => uint_val d (10 * acc + 3)
  | Decimal.D4 d => uint_val d (10 * acc + 4)
  | Decimal.D5 d => uint_val d (10 * acc + 5)
  | Decimal.D6 d => uint_val d (10 * acc + 6)
  | Decimal.D7 d => uint_val d (10 * acc + 7)
  | Decimal.D8 d => uint_val d (10 * acc + 8)
  | Decimal.D9 d => uint_val d (10 * acc + 9)
  end.

End DecimalValue.

Module OmdbMore.
Import Omdb.

(** The error a fetch of page [pageNumber] ends with, read off what the
    client gives back for the page's request. *)
Definition page_error (os : OmdbSearcher) (ctx : Context) (query : string)
  (pageNumber : Z) : option error :=
  match client os (request os ctx query pageNumber) with
  | inl e => Some e
  | inr resp =>
      match Body resp with
      | inl e => Some e
      | inr r =>
          if String.eqb (Error r) "Movie not found!" then None
          else if negb (String.eqb (Error r) "") then
            Some (Errorf "OMDB API request failed with error: %s" (ArgString (Error r)))
          else
            match Atoi (TotalResults r) with
            | inr e =>
                Some (Errorf "failed to convert totalResults to int: %v"
                        (ArgError (ConvError e)))
            | inl _ => None
            end
      end
  end.

(** The response to page [pageNumber] says that nothing lies beyond [n]
    results: it is the not-found signal, or its [totalResults] is at most
    [n]. *)
Definition reports_no_more (os : OmdbSearcher) (ctx : Context) (query : string)
  (pageNumber : Z) (n : Z) : Prop :=
  exists status r,
    client os (request os ctx query pageNumber) = inr (mkResponse status (inr r)) /\
    (Error r = "Movie not found!" \/
     exists totalResults, Atoi (TotalResults r) = inl totalResults /\ totalResults <= n).

(** The same searcher behind a client whose status codes went through [f]. *)
Definition with_status (f : Z -> Z) (os : OmdbSearcher) : OmdbSearcher :=
  NewOmdbSearcher (apiKey os)
    (fun req =>
       match client os req with
       | inl e => inl e
       | inr resp => inr (mkResponse (f (StatusCode resp)) (Body resp))
       end).

(** What every request of a call for [query] under [ctx] looks like. *)
Definition well_formed_request (os : OmdbSearcher) (ctx : Context) (query : string)
  (r : Request) : Prop :=
  req_ctx r = ctx /\ req_method r = "GET" /\ req_url r = "https://www.omdbapi.com" /\
  req_header r = [] /\
  exists page, req_params r = [("apiKey", apiKey os); ("s", query); ("page", page)].

End OmdbMore.

Module TmdbMore.
Import Tmdb.

(** The error a fetch of page [pageNumber] ends with, read off what the
    client gives back for the page's request. *)
Definition page_error (os : TmdbSearcher) (ctx : Context) (query : string)
  (pageNumber : Z) : option error :=
  match client os (request os ctx query pageNumber) with
  | inl e => Some e
  | inr resp =>
      match Body resp with
      | inl e => Some e
      | inr r =>
          if negb (StatusCode resp =? StatusOK)
             || (negb (Success r) && negb (String.eqb (StatusMessage r) ""))
          then Some (Errorf "search request failed: %s" (ArgString (StatusMessage r)))
          else None
      end
  end.

(** The response to page [pageNumber] says that no page lies beyond it. *)
Definition reports_no_more (os : TmdbSearcher) (ctx : Context) (query : string)
  (pageNumber : Z) : Prop :=
  exists r,
    client os (request os ctx query pageNumber) = inr (mkResponse StatusOK (inr r)) /\
    TotalPages r <= pageNumber.

(** The same searcher behind a client whose [total_results] went through
    [f]. *)
Definition with_total_results (f : Z -> Z) (os : TmdbSearcher) : TmdbSearcher :=
  NewTmdbSearcher (apiKey os)
    (fun req =>
       match client os req with
       | inl e => inl e
       | inr resp =>
           inr (mkResponse (StatusCode resp)
                  match Body resp with
                  | inl e => inl e
                  | inr r =>
                      inr (mkTmdbResponse (Result r) (f (TotalResults r)) (TotalPages r)
                             (Success r) (StatusMessage r))
                  end)
       end).

(** What every request of a call for [query] under [ctx] looks like. *)
Definition well_formed_request (os : TmdbSearcher) (ctx : Context) (query : string)
  (r : Request) : Prop :=
  req_ctx r = ctx /\ req_method r = "GET" /\
  req_url r = "https://api.themoviedb.org/3/search/multi" /\
  req_header r = [("Authorization", ("Bearer " ++ apiKey os)%string);
                  ("Accept", "application/json")] /\
  exists page, req_params r = [("query", query); ("page", page)].

End TmdbMore.

(** * Properties *)

(** ** Integers and lists *)

Lemma wrap_in_int (z : Z) : in_int z -> wrap z = z.
Proof.
  unfold in_int, min_int, max_int, wrap. intros H.
  rewrite Z.mod_small; lia.
Qed.

Lemma int_sub_exact (a b : Z) : in_int (a - b) -> int_sub a b = a - b.
Proof. apply wrap_in_int. Qed.

Lemma int_add_exact (a b : Z) : in_int (a + b) -> int_add a b = a + b.
Proof. apply wrap_in_int. Qed.

Lemma len_nonneg {A : Type} (l : list A) : 0 <= len l.
Proof. unfold len. lia. Qed.

Lemma len_app {A : Type} (l1 l2 : list A) : len (l1 ++ l2) = len l1 + len l2.
Proof. unfold len. rewrite length_app. lia. Qed.

Lemma len_map {A B : Type} (f : A -> B) (l : list A) : len (map f l) = len l.
Proof. unfold len. now rewrite length_map. Qed.

Lemma len_firstn {A : Type} (m : Z) (l : list A) :
  0 <= m -> len (firstn (Z.to_nat m) l) = Z.min m (len l).
Proof. intros Hm. unfold len. rewrite length_firstn. lia. Qed.

Lemma firstn_past {A : Type} (m : Z) (l : list A) :
  len l <= m -> firstn (Z.to_nat m) l = l.
Proof. unfold len. intros H. apply firstn_all2. lia. Qed.

(** Taking [M] items of a list that starts with [rs], when [rs] is shorter
    than [M]. *)
Lemma firstn_app_left {A : Type} (M : Z) (rs l : list A) :
  len rs <= M ->
  firstn (Z.to_nat M) (rs ++ l) = rs ++ firstn (Z.to_nat (M - len rs)) l.
Proof.
  unfold len. intros H. rewrite firstn_app.
  rewrite firstn_all2 by lia. f_equal. f_equal. lia.
Qed.

Lemma firstn_firstn_app {A : Type} (m : nat) (l rest : list A) :
  (rest = [] \/ (m <= List.length l)%nat) ->
  firstn m (l ++ rest) = firstn m l.
Proof.
  intros [-> | H].
  - now rewrite app_nil_r.
  - rewrite firstn_app. replace (m - List.length l)%nat with 0%nat by lia.
    simpl. now rewrite app_nil_r.
Qed.

Lemma remaining_after_pos (m k : Z) : 0 < remaining_after m k <-> k < m.
Proof. unfold remaining_after. destruct (Z.leb_spec k m); lia. Qed.

(** ** The [range] loops of the two adapters *)

Lemma omdb_range_Result (items : list Omdb.omdbItem) :
  forall (m : Z) (rs : list SearchResult),
    0 <= m <= max_int ->
    Omdb.range_Result items m rs =
    (remaining_after m (len items),
     rs ++ firstn (Z.to_nat m) (map Omdb.convert items)).
Proof.
  induction items as [| x rest IH]; intros m rs Hm.
  - simpl. unfold remaining_after, len. simpl.
    destruct (Z.leb_spec 0 m); try lia.
    rewrite firstn_nil, app_nil_r. f_equal. lia.
  - cbn [Omdb.range_Result].
    rewrite int_sub_exact by (unfold in_int, min_int, max_int in *; lia).
    destruct (Z.ltb_spec (m - 1) 0) as [Hlt | Hge].
    + assert (m = 0) by lia. subst m. simpl. rewrite app_nil_r.
      unfold remaining_after.
      destruct (Z.leb_spec (len (x :: rest)) 0) as [Hl | Hl]; [| reflexivity].
      unfold len in Hl. simpl in Hl. lia.
    + rewrite IH by lia.
      replace (Z.to_nat m) with (S (Z.to_nat (m - 1))) by lia.
      cbn [map firstn]. rewrite <- app_assoc. cbn [app].
      f_equal. unfold remaining_after, len. cbn [List.length].
      destruct (Z.leb_spec (Z.of_nat (List.length rest)) (m - 1));
        destruct (Z.leb_spec (Z.of_nat (S (List.length rest))) m); lia.
Qed.

Lemma tmdb_range_Result (items : list Tmdb.tmdbItem) :
  forall (m : Z) (rs : list SearchResult),
    0 <= m <= max_int ->
    Tmdb.range_Result items m rs =
    (remaining_after m (len (TmdbSpec.mapped items)),
     rs ++ firstn (Z.to_nat m) (TmdbSpec.mapped items)).
Proof.
  induction items as [| x rest IH]; intros m rs Hm.
  - simpl. unfold remaining_after, len. simpl.
    destruct (Z.leb_spec 0 m); try lia.
    rewrite firstn_nil, app_nil_r. f_equal. lia.
  - cbn [Tmdb.range_Result TmdbSpec.mapped flat_map].
    destruct (Tmdb.resultType_of (Tmdb.item_Type x)) as [ty |].
    + rewrite int_sub_exact by (unfold in_int, min_int, max_int in *; lia).
      destruct (Z.ltb_spec (m - 1) 0) as [Hlt | Hge].
      * assert (m = 0) by lia. subst m. simpl. rewrite app_nil_r.
        unfold remaining_after.
        match goal with |- context [?a <=? 0] => destruct (Z.leb_spec a 0) as [Hl | Hl] end;
          [| reflexivity].
        unfold len in Hl. simpl in Hl. lia.
      * rewrite IH by lia. fold (TmdbSpec.mapped rest).
        replace (Z.to_nat m) with (S (Z.to_nat (m - 1))) by lia.
        cbn [app firstn]. rewrite <- app_assoc. cbn [app].
        f_equal. unfold remaining_after, len. cbn [List.length].
        match goal with |- context [?a <=? m - 1] => destruct (Z.leb_spec a (m - 1)) end;
          match goal with |- context [?a <=? m] => destruct (Z.leb_spec a m) end; lia.
    + cbn [app]. fold (TmdbSpec.mapped rest). apply IH. exact Hm.
Qed.

(** ** One page fetch *)

Lemma omdb_searchPage_decoded (os : Omdb.OmdbSearcher) (ctx : Context)
  (query : string) (m p : Z) (st : State) (status : Z) (r : Omdb.omdbResponse) :
  1 <= m <= max_int ->
  Omdb.client os (Omdb.request os ctx query p) = inr (mkResponse status (inr r)) ->
  Omdb.searchPage os ctx query m p st =
  let st1 := mkState (results st) (sent st ++ [Omdb.request os ctx query p]) in
  if String.eqb (Omdb.Error r) OmdbSpec.notFound then ((false, None), st1)
  else if negb (String.eqb (Omdb.Error r) "") then
    ((false, Some (Errorf "OMDB API request failed with error: %s"
                     (ArgString (Omdb.Error r)))), st1)
  else
    let results' := results st ++ firstn (Z.to_nat m) (map Omdb.convert (Omdb.Result r)) in
    let st2 := mkState results' (sent st1) in
    match Atoi (Omdb.TotalResults r) with
    | inr e =>
        ((false, Some (Errorf "failed to convert totalResults to int: %v"
                         (ArgError (ConvError e)))), st2)
    | inl totalResults =>
        ((len results' <? totalResults)
         && (remaining_after m (len (Omdb.Result r)) >? 0), None, st2)
    end.
Proof.
  intros Hm Hc. unfold Omdb.searchPage.
  destruct (Z.leb_spec m 0); [lia |].
  rewrite Hc. cbn [Body]. unfold OmdbSpec.notFound.
  destruct (String.eqb (Omdb.Error r) "Movie not found!"); [reflexivity |].
  destruct (negb (String.eqb (Omdb.Error r) "")); [reflexivity |].
  rewrite omdb_range_Result by lia. cbn [results sent].
  destruct (Atoi (Omdb.TotalResults r)); [| reflexivity].
  match goal with |- context [if ?c then _ else _] => destruct c end; reflexivity.
Qed.

Lemma tmdb_searchPage_decoded (os : Tmdb.TmdbSearcher) (ctx : Context)
  (query : string) (m p : Z) (st : State) (status : Z) (r : Tmdb.tmdbResponse) :
  1 <= m <= max_int ->
  Tmdb.client os (Tmdb.request os ctx query p) = inr (mkResponse status (inr r)) ->
  Tmdb.searchPage os ctx query m p st =
  let st1 := mkState (results st) (sent st ++ [Tmdb.request os ctx query p]) in
  if negb (status =? StatusOK)
     || (negb (Tmdb.Success r) && negb (String.eqb (Tmdb.StatusMessage r) ""))
  then
    ((false, Some (Errorf "search request failed: %s"
                     (ArgString (Tmdb.StatusMessage r)))), st1)
  else
    let results' := results st ++ firstn (Z.to_nat m) (TmdbSpec.mapped (Tmdb.Result r)) in
    ((p <? Tmdb.TotalPages r)
     && (remaining_after m (len (TmdbSpec.mapped (Tmdb.Result r))) >? 0), None,
     mkState results' (sent st1)).
Proof.
  intros Hm Hc. unfold Tmdb.searchPage.
  destruct (Z.leb_spec m 0); [lia |].
  rewrite Hc. cbn [Body StatusCode].
  match goal with |- context [if ?c then _ else _] => destruct c end; [reflexivity |].
  rewrite tmdb_range_Result by lia. cbn [results sent].
  match goal with |- context [if ?c then _ else _] => destruct c end; reflexivity.
Qed.

(** A page fetch that reports no error sent one request and appended the
    page's contribution, cut at the quota; it asks for a further page only
    when the contribution fell short of the quota. *)
Lemma omdb_searchPage_no_error (os : Omdb.OmdbSearcher) (ctx : Context)
  (query : string) (m p : Z) (st st' : State) (b : bool) :
  1 <= m <= max_int ->
  Omdb.searchPage os ctx query m p st = ((b, None), st') ->
  sent st' = sent st ++ [Omdb.request os ctx query p] /\
  results st' = results st ++ firstn (Z.to_nat m) (OmdbSpec.page_results os ctx query p) /\
  (b = true -> len (OmdbSpec.page_results os ctx query p) < m).
Proof.
  intros Hm H. unfold OmdbSpec.page_results.
  destruct (Omdb.client os (Omdb.request os ctx query p)) as [e | [status [e | r]]] eqn:Hc.
  - unfold Omdb.searchPage in H. destruct (Z.leb_spec m 0); [lia |].
    rewrite Hc in H. discriminate.
  - unfold Omdb.searchPage in H. destruct (Z.leb_spec m 0); [lia |].
    rewrite Hc in H. discriminate.
  - rewrite (omdb_searchPage_decoded _ _ _ _ _ _ _ _ Hm Hc) in H.
    cbn zeta in H. cbn [Body].
    destruct (String.eqb (Omdb.Error r) OmdbSpec.notFound).
    + injection H as <- <-. cbn [results sent]. rewrite firstn_nil, app_nil_r.
      repeat split; discriminate.
    + destruct (negb (String.eqb (Omdb.Error r) "")); [discriminate |].
      destruct (Atoi (Omdb.TotalResults r)) as [T | e]; [| discriminate].
      injection H as <- <-. cbn [results sent]. repeat split.
      intros Hb. apply andb_prop in Hb as [_ Hb].
      apply Z.gtb_lt in Hb. unfold len at 1. rewrite length_map.
      apply remaining_after_pos. exact Hb.
Qed.

Lemma tmdb_searchPage_no_error (os : Tmdb.TmdbSearcher) (ctx : Context)
  (query : string) (m p : Z) (st st' : State) (b : bool) :
  1 <= m <= max_int ->
  Tmdb.searchPage os ctx query m p st = ((b, None), st') ->
  sent st' = sent st ++ [Tmdb.request os ctx query p] /\
  results st' = results st ++ firstn (Z.to_nat m) (TmdbSpec.page_results os ctx query p) /\
  (b = true -> len (TmdbSpec.page_results os ctx query p) < m).
Proof.
  intros Hm H. unfold TmdbSpec.page_results.
  destruct (Tmdb.client os (Tmdb.request os ctx query p)) as [e | [status [e | r]]] eqn:Hc.
  - unfold Tmdb.searchPage in H. destruct (Z.leb_spec m 0); [lia |].
    rewrite Hc in H. discriminate.
  - unfold Tmdb.searchPage in H. destruct (Z.leb_spec m 0); [lia |].
    rewrite Hc in H. discriminate.
  - rewrite (tmdb_searchPage_decoded _ _ _ _ _ _ _ _ Hm Hc) in H.
    cbn zeta in H. cbn [Body].
    match type of H with (if ?c then _ else _) = _ => destruct c end; [discriminate |].
    injection H as <- <-. cbn [results sent]. repeat split.
    intros Hb. apply andb_prop in Hb as [_ Hb].
    apply Z.gtb_lt in Hb. apply remaining_after_pos. exact Hb.
Qed.

(** ** The pagination loop, for any client *)

Lemma length_pages_from (n : nat) : forall p, List.length (pages_from p n) = n.
Proof. induction n as [| n IH]; intros p; [reflexivity |]. cbn. now rewrite IH. Qed.

Lemma pages_from_exact (n : nat) :
  forall p, p + Z.of_nat n <= max_int + 1 -> min_int <= p ->
    pages_from p n = map (fun i => p + Z.of_nat i) (seq 0 n).
Proof.
  induction n as [| n IH]; intros p Hp Hlo; [reflexivity |].
  cbn [pages_from seq map]. f_equal; [lia |].
  destruct n as [| n']; [reflexivity |].
  rewrite int_add_exact by (unfold in_int; lia).
  rewrite IH by lia. rewrite <- seq_shift, map_map.
  apply map_ext. intros i. lia.
Qed.

Lemma pages_from_one (n : nat) :
  Z.of_nat n <= max_int -> pages_from 1 n = page_numbers n.
Proof.
  intros Hn. rewrite pages_from_exact by (unfold min_int; lia).
  unfold page_numbers. rewrite <- seq_shift, map_map.
  apply map_ext. intros i. lia.
Qed.

(** More fuel does not change what the loop returns. *)
Lemma Search_loop_more_fuel (searchPage : Z -> Z -> State -> (bool * option error) * State)
  (fuel : nat) :
  forall fuel' M p st out,
    (fuel <= fuel')%nat ->
    Search_loop searchPage fuel M p st = Some out ->
    Search_loop searchPage fuel' M p st = Some out.
Proof.
  induction fuel as [| fuel IH]; intros fuel' M p st out Hle H; [discriminate |].
  destruct fuel' as [| fuel']; [lia |].
  cbn [Search_loop] in *.
  destruct (len (results st) <? M); [| exact H].
  destruct (searchPage (int_sub M (len (results st))) p st) as [[b [e |]] st1];
    [exact H |].
  destruct (negb b); [exact H |].
  apply IH; [lia | exact H].
Qed.

Lemma Search_with_more_fuel (makeslice : Z -> bool)
  (searchPage : Z -> Z -> State -> (bool * option error) * State)
  (fuel fuel' : nat) (M : Z) (o : Outcome) :
  (fuel <= fuel')%nat ->
  Search_with makeslice searchPage fuel M = Some (Returns o) ->
  Search_with makeslice searchPage fuel' M = Some (Returns o).
Proof.
  unfold Search_with. intros Hle. destruct (M <=? 0); [trivial |].
  destruct (negb (makeslice M)); [trivial |].
  destruct (Search_loop searchPage fuel M 1 (mkState [] [])) as [out |] eqn:Hl;
    [| discriminate].
  now rewrite (Search_loop_more_fuel _ _ _ _ _ _ _ Hle Hl).
Qed.

Section AnyClient.

Variable makeslice : Z -> bool.
Variable searchPage : Z -> Z -> State -> (bool * option error) * State.
Variable request_of : Z -> Request.
Variable page_results : Z -> list SearchResult.
Variable M : Z.

Hypothesis M_int : in_int M.

Hypothesis page_no_error : forall m p st st' b,
  1 <= m <= max_int ->
  searchPage m p st = ((b, None), st') ->
  sent st' = sent st ++ [request_of p] /\
  results st' = results st ++ firstn (Z.to_nat m) (page_results p) /\
  (b = true -> len (page_results p) < m).

(** Falling out of the loop: [n] pages were fetched, one after the other,
    and the slice grew by their contributions in that order, cut where the
    quota was met. *)
Lemma Search_loop_falls_out (fuel : nat) :
  forall p st st',
    Search_loop searchPage fuel M p st = Some (inr tt, st') ->
    exists n,
      (n <= fuel)%nat /\
      sent st' = sent st ++ map request_of (pages_from p n) /\
      results st' =
        results st
        ++ firstn (Z.to_nat (M - len (results st)))
             (flat_map page_results (pages_from p n)).
Proof.
  induction fuel as [| fuel IH]; intros p st st' H; [discriminate |].
  cbn [Search_loop] in H.
  destruct (Z.ltb_spec (len (results st)) M) as [Hlt | Hge].
  - pose proof (len_nonneg (results st)) as Hl0.
    assert (Hm : 1 <= M - len (results st) <= max_int)
      by (unfold in_int, min_int, max_int in *; lia).
    rewrite int_sub_exact in H by (unfold in_int, min_int, max_int in *; lia).
    destruct (searchPage (M - len (results st)) p st) as [[b [e |]] st1] eqn:Hp;
      [discriminate |].
    destruct (page_no_error _ _ _ _ _ Hm Hp) as (Hs & Hr & Hb).
    destruct b; cbn [negb] in H.
    + apply IH in H as (n & Hn & Hs' & Hr'). exists (S n).
      specialize (Hb eq_refl).
      rewrite firstn_past in Hr by lia.
      cbn [pages_from map flat_map]. split; [lia |]. split.
      * rewrite Hs', Hs, <- app_assoc. reflexivity.
      * rewrite Hr', Hr, <- app_assoc. f_equal.
        rewrite firstn_app_left by lia. rewrite len_app. do 3 f_equal. lia.
    + injection H as <-. exists 1%nat. cbn [pages_from map flat_map].
      rewrite app_nil_r. split; [lia |]. split; assumption.
  - injection H as <-. exists 0%nat. cbn [pages_from map flat_map].
    replace (Z.to_nat (M - len (results st))) with 0%nat by lia.
    cbn [firstn]. rewrite !app_nil_r. split; [lia |]. now split.
Qed.

(** A call that returns no error returns the first [M] of the contributions
    of the pages it fetched, in the order it fetched them. *)
Lemma Search_with_no_error (fuel : nat) (o : Outcome) :
  Search_with makeslice searchPage fuel M = Some (Returns o) ->
  err o = None ->
  exists n,
    (n <= fuel)%nat /\
    requests o = map request_of (pages_from 1 n) /\
    returned o = firstn (Z.to_nat M) (flat_map page_results (pages_from 1 n)).
Proof.
  unfold Search_with. intros H He.
  destruct (Z.leb_spec M 0); [injection H as <-; discriminate |].
  destruct (negb (makeslice M)); [discriminate |].
  destruct (Search_loop searchPage fuel M 1 (mkState [] [])) as [[[e | []] st'] |] eqn:Hl;
    [injection H as <-; discriminate | | discriminate].
  injection H as <-. cbn [returned requests].
  apply Search_loop_falls_out in Hl as (n & Hn & Hs & Hr).
  exists n. cbn [results sent app] in Hs, Hr. unfold len in Hr. cbn in Hr.
  rewrite Z.sub_0_r in Hr. split; [exact Hn |]. split; assumption.
Qed.

End AnyClient.

(** ** The pagination loop against a provider that serves its pages *)

Lemma page_numbers_split (np k : nat) :
  (k < np)%nat ->
  page_numbers np =
  page_numbers k ++ Z.of_nat (S k) :: map Z.of_nat (seq (S (S k)) (np - S k)).
Proof.
  intros Hk. unfold page_numbers.
  replace np with (k + S (np - S k))%nat at 1 by lia.
  rewrite seq_app, map_app. reflexivity.
Qed.

Lemma page_numbers_snoc (k : nat) :
  page_numbers (S k) = page_numbers k ++ [Z.of_nat (S k)].
Proof.
  rewrite (page_numbers_split (S k) k) by lia.
  now replace (S k - S k)%nat with 0%nat by lia.
Qed.

Section ServedPages.

Variable makeslice : Z -> bool.
Variable searchPage : Z -> Z -> State -> (bool * option error) * State.
Variable request_of : Z -> Request.
Variable page_results : Z -> list SearchResult.
Variable np : nat.
Variable M : Z.

Hypothesis M_int : in_int M.
Hypothesis np_int : Z.of_nat np <= max_int.

(** Every page up to [np] is served without error once the pages before it
    are in the slice, and asks for a further page exactly when the quota is
    not met and the page is not the last one. *)
Hypothesis page_served : forall m p st,
  1 <= m <= max_int ->
  1 <= p <= Z.of_nat np ->
  results st = flat_map page_results (page_numbers (Z.to_nat (p - 1))) ->
  exists b,
    searchPage m p st =
      ((b, None),
       mkState (results st ++ firstn (Z.to_nat m) (page_results p))
               (sent st ++ [request_of p])) /\
    (b = true <-> len (page_results p) < m /\ p < Z.of_nat np).

Lemma Search_loop_served (fuel : nat) :
  forall (k : nat) (st : State),
    (k < np)%nat ->
    (np - k <= fuel)%nat ->
    results st = flat_map page_results (page_numbers k) ->
    len (results st) < M ->
    exists st',
      Search_loop searchPage fuel M (Z.of_nat (S k)) st = Some (inr tt, st') /\
      results st' = firstn (Z.to_nat M) (flat_map page_results (page_numbers np)).
Proof.
  induction fuel as [| fuel IH]; intros k st Hk Hf Hr Hlt; [lia |].
  cbn [Search_loop].
  destruct (Z.ltb_spec (len (results st)) M) as [_ | Hge]; [| lia].
  pose proof (len_nonneg (results st)) as Hl0.
  assert (Hm : 1 <= M - len (results st) <= max_int)
    by (unfold in_int, min_int, max_int in *; lia).
  rewrite int_sub_exact by (unfold in_int, min_int, max_int in *; lia).
  assert (Hpage : 1 <= Z.of_nat (S k) <= Z.of_nat np) by lia.
  assert (Hbefore : results st =
                    flat_map page_results (page_numbers (Z.to_nat (Z.of_nat (S k) - 1)))).
  { replace (Z.to_nat (Z.of_nat (S k) - 1)) with k by lia. exact Hr. }
  destruct (page_served (M - len (results st)) (Z.of_nat (S k)) st Hm Hpage Hbefore)
    as (b & Hp & Hb).
  rewrite Hp. set (rest := map Z.of_nat (seq (S (S k)) (np - S k))).
  assert (Hall : flat_map page_results (page_numbers np) =
                 results st ++ page_results (Z.of_nat (S k)) ++ flat_map page_results rest).
  { rewrite (page_numbers_split np k Hk), flat_map_app, <- Hr. reflexivity. }
  destruct b; cbn [negb].
  - destruct (proj1 Hb eq_refl) as [Hshort Hmore].
    rewrite int_add_exact by (unfold in_int, min_int, max_int in *; lia).
    replace (Z.of_nat (S k) + 1) with (Z.of_nat (S (S k))) by lia.
    apply IH; cbn [results]; try lia.
    + rewrite firstn_past by lia.
      rewrite page_numbers_snoc, flat_map_app, <- Hr. cbn [flat_map].
      now rewrite app_nil_r.
    + rewrite firstn_past by lia. rewrite len_app. lia.
  - eexists; split; [reflexivity |]. cbn [results].
    rewrite Hall, firstn_app_left by lia. f_equal.
    symmetry. apply firstn_firstn_app.
    destruct (Z.ltb_spec (len (page_results (Z.of_nat (S k)))) (M - len (results st)))
      as [Hshort | Hfull].
    + left. assert (Hlast : ~ Z.of_nat (S k) < Z.of_nat np).
      { intros Hc. discriminate (proj2 Hb (conj Hshort Hc)). }
      subst rest. replace (np - S k)%nat with 0%nat by lia. reflexivity.
    + right. unfold len in *. lia.
Qed.

(** Against such a provider a call with a valid quota whose capacity the
    runtime grants returns, with no error, the first [M] of the results of
    all its pages. *)
Lemma Search_with_served (fuel : nat) :
  (1 <= np)%nat -> (np <= fuel)%nat -> 1 <= M -> makeslice M = true ->
  exists reqs,
    Search_with makeslice searchPage fuel M =
    Some (Returns (mkOutcome (firstn (Z.to_nat M) (flat_map page_results (page_numbers np)))
            None reqs)).
Proof.
  intros Hnp Hf HM Hcap. unfold Search_with.
  destruct (Z.leb_spec M 0); [lia |]. rewrite Hcap. cbn [negb].
  destruct (Search_loop_served fuel 0 (mkState [] [])) as (st' & Hl & Hr);
    try (cbn; lia); try reflexivity.
  cbn [Z.of_nat Pos.of_succ_nat] in Hl. rewrite Hl, Hr.
  eexists. reflexivity.
Qed.

End ServedPages.

(** ** Pages of a corpus *)

Lemma firstn_skipn_add {A : Type} (a b : nat) :
  forall l : list A, firstn a l ++ firstn b (skipn a l) = firstn (a + b) l.
Proof.
  induction a as [| a IH]; intros l; [reflexivity |].
  destruct l as [| x l]; cbn [firstn skipn Nat.add app].
  - now rewrite firstn_nil.
  - f_equal. apply IH.
Qed.

Lemma page_slice_of_nat {A : Type} (corpus : list A) (size k : nat) :
  page_slice corpus size (Z.of_nat (S k)) = firstn size (skipn (k * size) corpus).
Proof. unfold page_slice. do 3 f_equal. lia. Qed.

Lemma pages_concat {A : Type} (corpus : list A) (size n : nat) :
  flat_map (page_slice corpus size) (page_numbers n) = firstn (n * size) corpus.
Proof.
  induction n as [| n IH]; [reflexivity |].
  rewrite page_numbers_snoc, flat_map_app, IH. cbn [flat_map].
  rewrite app_nil_r, page_slice_of_nat, firstn_skipn_add.
  f_equal. lia.
Qed.

Lemma flat_map_map_pages {A B : Type} (f : A -> B) (g : Z -> list A) (l : list Z) :
  flat_map (fun p => map f (g p)) l = map f (flat_map g l).
Proof.
  induction l as [| p l IH]; [reflexivity |].
  cbn [flat_map]. now rewrite map_app, IH.
Qed.

Lemma mapped_app (l1 l2 : list Tmdb.tmdbItem) :
  TmdbSpec.mapped (l1 ++ l2) = TmdbSpec.mapped l1 ++ TmdbSpec.mapped l2.
Proof. unfold TmdbSpec.mapped. apply flat_map_app. Qed.

Lemma flat_map_mapped_pages (g : Z -> list Tmdb.tmdbItem) (l : list Z) :
  flat_map (fun p => TmdbSpec.mapped (g p)) l = TmdbSpec.mapped (flat_map g l).
Proof.
  induction l as [| p l IH]; [reflexivity |].
  cbn [flat_map]. now rewrite mapped_app, IH.
Qed.

Lemma total_pages_lt (T size k : nat) :
  (0 < size)%nat -> (k < total_pages T size <-> k * size < T)%nat.
Proof.
  intros Hs. unfold total_pages. split; intros H.
  - destruct (Nat.lt_ge_cases (k * size) T) as [Hlt | Hge]; [exact Hlt |].
    assert (Hup : ((T + size - 1) / size < k + 1)%nat).
    { apply Nat.Div0.div_lt_upper_bound. nia. }
    lia.
  - assert (Hlow : (k + 1 <= (T + size - 1) / size)%nat).
    { apply Nat.div_le_lower_bound; [lia | nia]. }
    lia.
Qed.

Lemma total_pages_cover (T size : nat) :
  (0 < size)%nat -> (T <= num_pages T size * size)%nat.
Proof.
  intros Hs. unfold num_pages.
  destruct (Nat.lt_ge_cases (total_pages T size * size) T) as [Hlt | Hge]; [| nia].
  apply total_pages_lt in Hlt; [lia | exact Hs].
Qed.

Lemma total_pages_le (T size : nat) :
  (0 < size)%nat -> (total_pages T size <= T)%nat.
Proof.
  intros Hs. destruct (Nat.lt_ge_cases T (total_pages T size)) as [Hlt | Hge]; [| exact Hge].
  apply total_pages_lt in Hlt; [nia | exact Hs].
Qed.

Lemma num_pages_lt (T size : nat) (p : Z) :
  (0 < size)%nat -> 1 <= p ->
  (p < Z.of_nat (num_pages T size) <-> p < Z.of_nat (total_pages T size)).
Proof. unfold num_pages. lia. Qed.

Lemma all_pages {A : Type} (corpus : list A) (size : nat) :
  (0 < size)%nat ->
  flat_map (page_slice corpus size) (page_numbers (num_pages (List.length corpus) size))
  = corpus.
Proof.
  intros Hs. rewrite pages_concat. apply firstn_all2.
  now apply total_pages_cover.
Qed.

(** ** [strconv.Atoi] where it succeeds *)

Lemma digit_of_range (c : ascii) (d : Z) : digit_of c = Some d -> 0 <= d <= 9.
Proof.
  unfold digit_of.
  destruct (Z.leb_spec 48 (Z.of_N (N_of_ascii c)));
    destruct (Z.leb_spec (Z.of_N (N_of_ascii c)) 57); cbn [andb];
    intros Hd; try discriminate.
  injection Hd as <-. lia.
Qed.

(** A run of digits on top of [acc] denotes a number that starts with
    [acc]. *)
Lemma digits_value_bounds (s : string) :
  forall acc v,
    digits_value s acc = Some v -> 0 <= acc ->
    acc * 10 ^ Z.of_nat (String.length s) <= v
    < (acc + 1) * 10 ^ Z.of_nat (String.length s).
Proof.
  induction s as [| c s IH]; intros acc v H Hacc.
  - injection H as <-. cbn. lia.
  - cbn [digits_value] in H. destruct (digit_of c) as [d |] eqn:Hd; [| discriminate].
    apply digit_of_range in Hd. apply IH in H; [| lia].
    cbn [String.length]. rewrite Nat2Z.inj_succ, Z.pow_succ_r by lia.
    assert (0 < 10 ^ Z.of_nat (String.length s)) by (apply Z.pow_pos_nonneg; lia).
    nia.
Qed.

Lemma digits_value_ge (s : string) (acc v : Z) :
  digits_value s acc = Some v -> 0 <= acc -> acc <= v.
Proof.
  intros H Hacc. apply digits_value_bounds in H; [| exact Hacc].
  assert (0 < 10 ^ Z.of_nat (String.length s)) by (apply Z.pow_pos_nonneg; lia).
  nia.
Qed.

(** The loop of [ParseUint] computes the value of a run of digits that
    fits 64 bits. *)
Lemma ParseUint_digits_value (s : string) :
  forall n v,
    digits_value s n = Some v -> 0 <= n -> v <= maxUint64 ->
    ParseUint_digits s n = (v, None).
Proof.
  induction s as [| c s IH]; intros n v H Hn Hv.
  - injection H as <-. reflexivity.
  - cbn [digits_value] in H. cbn [ParseUint_digits].
    destruct (digit_of c) as [d |] eqn:Hd; [| discriminate].
    apply digit_of_range in Hd.
    pose proof (digits_value_ge _ _ _ H ltac:(lia)) as Hge.
    unfold maxUint64 in *.
    destruct (Z.geb_spec n ((2 ^ 64 - 1) / 10 + 1)) as [Hbig | _].
    { change ((2 ^ 64 - 1) / 10 + 1) with 1844674407370955162 in Hbig. lia. }
    cbn zeta. destruct (Z.gtb_spec (n * 10 + d) (2 ^ 64 - 1)) as [Hbig | _]; [lia |].
    apply IH; [exact H | lia | exact Hv].
Qed.

Lemma ParseUint_digits_nonneg (s : string) :
  forall n un, ParseUint_digits s n = (un, None) -> 0 <= n -> 0 <= un.
Proof.
  induction s as [| c s IH]; intros n un H Hn.
  - injection H as <-. exact Hn.
  - cbn [ParseUint_digits] in H.
    destruct (digit_of c) as [d |] eqn:Hd; [| discriminate].
    apply digit_of_range in Hd.
    destruct (n >=? maxUint64 / 10 + 1); [discriminate |].
    cbn zeta in H. destruct (n * 10 + d >? maxUint64); [discriminate |].
    apply IH in H; lia.
Qed.

Lemma ParseInt_in_int (s : string) (v : Z) : ParseInt s = inl v -> in_int v.
Proof.
  unfold ParseInt, in_int, min_int, max_int.
  destruct s as [| c rest]; [discriminate |]. cbn zeta.
  set (digits := if (c =? "+")%char || (c =? "-")%char then rest else String c rest).
  destruct (ParseUint digits) as [un [[] |]] eqn:Hu; [discriminate | |].
  - destruct (c =? "-")%char; cbn [negb andb];
      [destruct (Z.gtb_spec un (2 ^ 63)) | destruct (Z.geb_spec un (2 ^ 63))];
      intros Hv; try discriminate; injection Hv as <-.
    + assert (un = maxUint64).
      { unfold ParseUint in Hu. destruct digits; [discriminate |].
        revert Hu. generalize (String a digits) 0. clear.
        intros s. induction s as [| c s IH]; intros n H; [discriminate |].
        cbn [ParseUint_digits] in H. destruct (digit_of c); [| discriminate].
        destruct (n >=? maxUint64 / 10 + 1); [now injection H |].
        cbn zeta in H. destruct (n * 10 + z >? maxUint64); [now injection H |].
        now apply IH in H. }
      unfold maxUint64 in *. lia.
    + assert (un = maxUint64).
      { unfold ParseUint in Hu. destruct digits; [discriminate |].
        revert Hu. generalize (String a digits) 0. clear.
        intros s. induction s as [| c s IH]; intros n H; [discriminate |].
        cbn [ParseUint_digits] in H. destruct (digit_of c); [| discriminate].
        destruct (n >=? maxUint64 / 10 + 1); [now injection H |].
        cbn zeta in H. destruct (n * 10 + z >? maxUint64); [now injection H |].
        now apply IH in H. }
      unfold maxUint64 in *. lia.
  - assert (0 <= un).
    { unfold ParseUint in Hu. destruct digits; [discriminate |].
      apply ParseUint_digits_nonneg in Hu; lia. }
    destruct (c =? "-")%char; cbn [negb andb];
      [destruct (Z.gtb_spec un (2 ^ 63)) | destruct (Z.geb_spec un (2 ^ 63))];
      intros Hv; try discriminate; injection Hv as <-; lia.
Qed.

Lemma parse_decimal_short (s : string) (v : Z) :
  parse_decimal s = Some v -> (String.length s < 19)%nat -> in_int v.
Proof.
  intros H Hlen.
  assert (Hpow : forall n : nat, (n <= 18)%nat -> 10 ^ Z.of_nat n <= 10 ^ 18)
    by (intros n Hn; apply Z.pow_le_mono_r; lia).
  assert (Hrun : forall t u, digits_value t 0 = Some u -> (String.length t <= 18)%nat ->
                             0 <= u < 10 ^ 18).
  { intros t u Hu Ht. apply digits_value_bounds in Hu; [| lia].
    specialize (Hpow _ Ht). lia. }
  unfold in_int, min_int, max_int.
  destruct s as [| c rest]; [discriminate |]. cbn [String.length] in Hlen.
  unfold parse_decimal in H.
  destruct (c =? "-")%char.
  - destruct rest as [| c' rest']; [discriminate |].
    destruct (digits_value (String c' rest') 0) as [u |] eqn:Hu; [| discriminate].
    injection H as <-. apply Hrun in Hu; [lia | lia].
  - destruct (c =? "+")%char.
    + destruct rest as [| c' rest']; [discriminate |].
      apply Hrun in H; [lia | lia].
    + apply Hrun in H; [lia | cbn [String.length]; lia].
Qed.

Lemma Atoi_in_int (s : string) (v : Z) : Atoi s = inl v -> in_int v.
Proof.
  unfold Atoi.
  destruct (Nat.ltb_spec 0 (String.length s)); destruct (Nat.ltb_spec (String.length s) 19);
    cbn [andb].
  - destruct (parse_decimal s) as [w |] eqn:Hw; [| discriminate].
    intros Hv. injection Hv as <-. now apply (parse_decimal_short s).
  - destruct (ParseInt s) as [w | e] eqn:Hw; [| discriminate].
    intros Hv. injection Hv as <-. now apply (ParseInt_in_int s).
  - destruct (ParseInt s) as [w | e] eqn:Hw; [| discriminate].
    intros Hv. injection Hv as <-. now apply (ParseInt_in_int s).
  - destruct (ParseInt s) as [w | e] eqn:Hw; [| discriminate].
    intros Hv. injection Hv as <-. now apply (ParseInt_in_int s).
Qed.

(** A decimal text that denotes a number an [int] holds reads as that
    number. *)
Lemma Atoi_parse_decimal (s : string) (v : Z) :
  parse_decimal s = Some v -> in_int v -> Atoi s = inl v.
Proof.
  intros H Hv. unfold Atoi.
  destruct ((0 <? String.length s)%nat && (String.length s <? 19)%nat);
    [now rewrite H |].
  assert (Hint : ParseInt s = inl v); [| now rewrite Hint].
  unfold in_int, min_int, max_int in Hv.
  destruct s as [| c rest]; [discriminate |].
  unfold parse_decimal in H. unfold ParseInt. cbn zeta.
  destruct (c =? "-")%char.
  - rewrite orb_true_r. destruct rest as [| c' rest']; [discriminate |].
    destruct (digits_value (String c' rest') 0) as [u |] eqn:Hu; [| discriminate].
    injection H as <-. pose proof (digits_value_ge _ _ _ Hu ltac:(lia)).
    unfold ParseUint. rewrite (ParseUint_digits_value _ _ _ Hu) by (unfold maxUint64; lia).
    cbn [negb andb]. destruct (Z.gtb_spec u (2 ^ 63)); [lia | reflexivity].
  - rewrite orb_false_r. destruct (c =? "+")%char.
    + destruct rest as [| c' rest']; [discriminate |].
      pose proof (digits_value_ge _ _ _ H ltac:(lia)).
      unfold ParseUint. rewrite (ParseUint_digits_value _ _ _ H) by (unfold maxUint64; lia).
      cbn [negb andb]. destruct (Z.geb_spec v (2 ^ 63)); [lia | reflexivity].
    + pose proof (digits_value_ge _ _ _ H ltac:(lia)).
      unfold ParseUint. rewrite (ParseUint_digits_value _ _ _ H) by (unfold maxUint64; lia).
      cbn [negb andb]. destruct (Z.geb_spec v (2 ^ 63)); [lia | reflexivity].
Qed.

(** ** The adapters against an honest provider *)

Lemma page_slice_nil {A : Type} (size : nat) (p : Z) :
  page_slice (@nil A) size p = [].
Proof. unfold page_slice. now rewrite skipn_nil, firstn_nil. Qed.

Lemma omdb_honest_int (corpus : list Omdb.omdbItem) (size : nat)
  (os : Omdb.OmdbSearcher) (ctx : Context) (query : string) :
  OmdbSpec.honest corpus size os ctx query ->
  Z.of_nat (num_pages (List.length corpus) size) <= max_int.
Proof.
  intros [Hs Hpages].
  destruct (Hpages 1) as (status & r & _ & [(_ & _ & HT) | (Hnil & _)]).
  - unfold num_pages. lia.
  - apply Atoi_in_int in HT. unfold in_int, len in HT.
    pose proof (total_pages_le (List.length corpus) size Hs).
    unfold num_pages, max_int in *. lia.
  - subst corpus. pose proof (total_pages_le 0 size Hs).
    unfold num_pages, max_int. cbn [List.length] in *. lia.
Qed.

Lemma omdb_honest_page_served (corpus : list Omdb.omdbItem) (size : nat)
  (os : Omdb.OmdbSearcher) (ctx : Context) (query : string) :
  OmdbSpec.honest corpus size os ctx query ->
  forall m p st,
    1 <= m <= max_int ->
    1 <= p <= Z.of_nat (num_pages (List.length corpus) size) ->
    results st =
      flat_map (fun q => map Omdb.convert (page_slice corpus size q))
        (page_numbers (Z.to_nat (p - 1))) ->
    exists b,
      Omdb.searchPage os ctx query m p st =
        ((b, None),
         mkState (results st
                  ++ firstn (Z.to_nat m) (map Omdb.convert (page_slice corpus size p)))
                 (sent st ++ [Omdb.request os ctx query p])) /\
      (b = true <->
       len (map Omdb.convert (page_slice corpus size p)) < m /\
       p < Z.of_nat (num_pages (List.length corpus) size)).
Proof.
  intros [Hs Hpages] m p st Hm Hp Hr.
  destruct (Hpages p Hp) as (status & r & Hc & Hcase).
  rewrite (omdb_searchPage_decoded _ _ _ _ _ _ _ _ Hm Hc). cbn zeta.
  destruct Hcase as [(HE & HR & HT) | (Hnil & HE)].
  - rewrite HE, HT, HR. cbn [String.eqb negb OmdbSpec.notFound]. cbn [sent results].
    eexists; split; [reflexivity |].
    rewrite andb_true_iff, Z.ltb_lt, Z.gtb_lt, remaining_after_pos.
    rewrite num_pages_lt by lia.
    rewrite flat_map_map_pages, pages_concat in Hr.
    set (k := Z.to_nat (p - 1)) in *.
    assert (Hpk : p = Z.of_nat (S k)) by lia.
    pose proof (total_pages_lt (List.length corpus) size (S k) Hs) as Htp.
    rewrite Hpk at 1 2 3 4. rewrite page_slice_of_nat.
    rewrite len_app, Hr. unfold len. rewrite !length_firstn, !length_map, !length_firstn,
      length_skipn.
    rewrite Nat.mul_succ_l in Htp. split.
    + intros [H1 H2]. split; [lia |]. apply Nat2Z.inj_lt. apply Htp. lia.
    + intros [H1 H2]. split; [| exact H1]. apply Nat2Z.inj_lt in H2. apply Htp in H2. lia.
  - subst corpus. rewrite HE, String.eqb_refl, page_slice_nil.
    cbn [map firstn]. rewrite firstn_nil, app_nil_r.
    exists false. split; [reflexivity |].
    pose proof (total_pages_le 0 size Hs).
    unfold num_pages in *. cbn [List.length] in *. split; [discriminate | lia].
Qed.

(** Against an honest OMDB provider a call with a valid quota whose
    capacity the runtime grants returns the first [M] items of the corpus. *)
Lemma omdb_honest_Search (makeslice : Z -> bool) (corpus : list Omdb.omdbItem) (size : nat)
  (os : Omdb.OmdbSearcher) (ctx : Context) (query : string) (M : Z) (fuel : nat) :
  OmdbSpec.honest corpus size os ctx query ->
  1 <= M <= max_int ->
  makeslice M = true ->
  (num_pages (List.length corpus) size <= fuel)%nat ->
  exists reqs,
    Omdb.Search makeslice fuel os ctx query M =
    Some (Returns (mkOutcome (firstn (Z.to_nat M) (map Omdb.convert corpus)) None reqs)).
Proof.
  intros Hh HM Hcap Hf.
  destruct (Search_with_served makeslice (Omdb.searchPage os ctx query)
              (Omdb.request os ctx query)
              (fun q => map Omdb.convert (page_slice corpus size q))
              (num_pages (List.length corpus) size) M) with (fuel := fuel)
    as (reqs & Hsearch).
  - unfold in_int, min_int, max_int in *. lia.
  - eapply omdb_honest_int; eassumption.
  - intros m p st. apply omdb_honest_page_served. exact Hh.
  - unfold num_pages. lia.
  - exact Hf.
  - lia.
  - exact Hcap.
  - exists reqs. unfold Omdb.Search. rewrite Hsearch.
    rewrite flat_map_map_pages, all_pages by (destruct Hh; assumption).
    reflexivity.
Qed.

Lemma tmdb_honest_page_served (corpus : list Tmdb.tmdbItem) (size : nat)
  (os : Tmdb.TmdbSearcher) (ctx : Context) (query : string) :
  TmdbSpec.honest corpus size os ctx query ->
  forall m p st,
    1 <= m <= max_int ->
    1 <= p <= Z.of_nat (num_pages (List.length corpus) size) ->
    results st =
      flat_map (fun q => TmdbSpec.mapped (page_slice corpus size q))
        (page_numbers (Z.to_nat (p - 1))) ->
    exists b,
      Tmdb.searchPage os ctx query m p st =
        ((b, None),
         mkState (results st
                  ++ firstn (Z.to_nat m) (TmdbSpec.mapped (page_slice corpus size p)))
                 (sent st ++ [Tmdb.request os ctx query p])) /\
      (b = true <->
       len (TmdbSpec.mapped (page_slice corpus size p)) < m /\
       p < Z.of_nat (num_pages (List.length corpus) size)).
Proof.
  intros (Hs & Hint & Hpages) m p st Hm Hp _.
  destruct (Hpages p Hp) as (r & Hc & HR & _ & HP & Hok).
  rewrite (tmdb_searchPage_decoded _ _ _ _ _ _ _ _ Hm Hc). cbn zeta.
  assert (Hpass : negb (StatusOK =? StatusOK)
                  || negb (Tmdb.Success r) && negb (String.eqb (Tmdb.StatusMessage r) "")
                  = false).
  { rewrite Z.eqb_refl. cbn [negb orb]. destruct Hok as [-> | ->]; [reflexivity |].
    cbn [String.eqb negb]. apply andb_false_r. }
  rewrite Hpass, HR, HP. cbn [sent results].
  eexists; split; [reflexivity |].
  rewrite andb_true_iff, Z.ltb_lt, Z.gtb_lt, remaining_after_pos.
  rewrite num_pages_lt by lia. tauto.
Qed.

(** Against an honest TMDB provider a call with a valid quota whose
    capacity the runtime grants returns the first [M] of the corpus items of
    a mapped type. *)
Lemma tmdb_honest_Search (makeslice : Z -> bool) (corpus : list Tmdb.tmdbItem) (size : nat)
  (os : Tmdb.TmdbSearcher) (ctx : Context) (query : string) (M : Z) (fuel : nat) :
  TmdbSpec.honest corpus size os ctx query ->
  1 <= M <= max_int ->
  makeslice M = true ->
  (num_pages (List.length corpus) size <= fuel)%nat ->
  exists reqs,
    Tmdb.Search makeslice fuel os ctx query M =
    Some (Returns (mkOutcome (firstn (Z.to_nat M) (TmdbSpec.mapped corpus)) None reqs)).
Proof.
  intros Hh HM Hcap Hf.
  destruct (Search_with_served makeslice (Tmdb.searchPage os ctx query)
              (Tmdb.request os ctx query)
              (fun q => TmdbSpec.mapped (page_slice corpus size q))
              (num_pages (List.length corpus) size) M) with (fuel := fuel)
    as (reqs & Hsearch).
  - unfold in_int, min_int, max_int in *. lia.
  - destruct Hh as (_ & Hint & _). exact Hint.
  - intros m p st. apply tmdb_honest_page_served. exact Hh.
  - unfold num_pages. lia.
  - exact Hf.
  - lia.
  - exact Hcap.
  - exists reqs. unfold Tmdb.Search. rewrite Hsearch.
    rewrite flat_map_mapped_pages, all_pages by (destruct Hh; assumption).
    reflexivity.
Qed.


(** ** Errors: where they leave the loop, and how they read *)

(** A call that returns no error was given a valid quota. *)
(** A quota of at least one whose capacity the runtime refuses: [make]
    panics, before the loop and before any request. *)
Lemma Search_with_panics (makeslice : Z -> bool)
  (searchPage : Z -> Z -> State -> (bool * option error) * State)
  (fuel : nat) (M : Z) :
  1 <= M -> makeslice M = false ->
  Search_with makeslice searchPage fuel M = Some Panics.
Proof.
  intros HM Hcap. unfold Search_with.
  destruct (Z.leb_spec M 0); [lia |]. now rewrite Hcap.
Qed.

Lemma Search_with_valid (makeslice : Z -> bool)
  (searchPage : Z -> Z -> State -> (bool * option error) * State)
  (fuel : nat) (M : Z) (o : Outcome) :
  Search_with makeslice searchPage fuel M = Some (Returns o) -> err o = None -> 1 <= M.
Proof.
  unfold Search_with. destruct (Z.leb_spec M 0) as [Hle | Hgt]; [| lia].
  intros Hs. injection Hs as <-. discriminate.
Qed.

(** An error from a page fetch leaves the loop at once: [return nil, err]. *)
Lemma Search_loop_error (searchPage : Z -> Z -> State -> (bool * option error) * State)
  (fuel : nat) (M p : Z) (st st' : State) (b : bool) (e : error) :
  in_int M ->
  len (results st) < M ->
  searchPage (M - len (results st)) p st = ((b, Some e), st') ->
  Search_loop searchPage (S fuel) M p st = Some (inl e, st').
Proof.
  intros HM Hlt Hp. cbn [Search_loop].
  destruct (Z.ltb_spec (len (results st)) M); [| lia].
  pose proof (len_nonneg (results st)).
  rewrite int_sub_exact by (unfold in_int, min_int, max_int in *; lia).
  now rewrite Hp.
Qed.

(** A page fetch that reports neither an error nor a further page ends the
    loop. *)
Lemma Search_loop_last (searchPage : Z -> Z -> State -> (bool * option error) * State)
  (fuel : nat) (M p : Z) (st st' : State) :
  in_int M ->
  len (results st) < M ->
  searchPage (M - len (results st)) p st = ((false, None), st') ->
  Search_loop searchPage (S fuel) M p st = Some (inr tt, st').
Proof.
  intros HM Hlt Hp. cbn [Search_loop].
  destruct (Z.ltb_spec (len (results st)) M); [| lia].
  pose proof (len_nonneg (results st)).
  rewrite int_sub_exact by (unfold in_int, min_int, max_int in *; lia).
  now rewrite Hp.
Qed.

Lemma append_empty (s : string) : (s ++ "")%string = s.
Proof. induction s as [| c s IH]; [reflexivity |]. cbn. now rewrite IH. Qed.



(** ** [strconv.Atoi] on text that is not a decimal integer *)

Lemma digit_of_not_digit (c : ascii) : OmdbSpec.is_digit c = false -> digit_of c = None.
Proof.
  unfold OmdbSpec.is_digit, digit_of. intros H.
  destruct (N.leb_spec 48 (N_of_ascii c)); destruct (N.leb_spec (N_of_ascii c) 57);
    cbn [andb] in H; try discriminate;
    destruct (Z.leb_spec 48 (Z.of_N (N_of_ascii c)));
    destruct (Z.leb_spec (Z.of_N (N_of_ascii c)) 57); cbn [andb]; try reflexivity; lia.
Qed.

Lemma digits_value_not_digits (s : string) :
  forall acc, OmdbSpec.all_digits s = false -> digits_value s acc = None.
Proof.
  induction s as [| c s IH]; intros acc H; [discriminate |].
  cbn [OmdbSpec.all_digits] in H. cbn [digits_value].
  destruct (OmdbSpec.is_digit c) eqn:Hc.
  - cbn [andb] in H. destruct (digit_of c); [now apply IH | reflexivity].
  - now rewrite digit_of_not_digit.
Qed.

Lemma parse_decimal_not_decimal (s : string) :
  OmdbSpec.decimal_integer_string s = false -> parse_decimal s = None.
Proof.
  destruct s as [| c rest]; [reflexivity |].
  unfold OmdbSpec.decimal_integer_string, parse_decimal.
  destruct (Ascii.eqb c "-") eqn:Hminus; cbn [orb].
  - destruct rest as [| c' rest']; [reflexivity |]. cbn [String.eqb negb andb].
    intros H. now rewrite digits_value_not_digits.
  - destruct (Ascii.eqb c "+") eqn:Hplus.
    + destruct rest as [| c' rest']; [reflexivity |]. cbn [String.eqb negb andb].
      intros H. now rewrite digits_value_not_digits.
    + intros H. now apply digits_value_not_digits.
Qed.

Lemma ParseUint_digits_not_digits (s : string) :
  forall n, OmdbSpec.all_digits s = false ->
    ParseUint_digits s n = (0, Some ErrSyntax) \/
    ParseUint_digits s n = (maxUint64, Some ErrRange).
Proof.
  induction s as [| c s IH]; intros n H; [discriminate |].
  cbn [OmdbSpec.all_digits] in H. cbn [ParseUint_digits].
  destruct (OmdbSpec.is_digit c) eqn:Hc.
  - cbn [andb] in H. destruct (digit_of c) as [d |]; [| now left].
    destruct (n >=? maxUint64 / 10 + 1); [now right |].
    cbn zeta. destruct (n * 10 + d >? maxUint64); [now right | now apply IH].
  - rewrite digit_of_not_digit by exact Hc. now left.
Qed.

Lemma ParseInt_not_decimal (s : string) :
  OmdbSpec.decimal_integer_string s = false -> exists kind, ParseInt s = inr kind.
Proof.
  destruct s as [| c rest]; [now exists ErrSyntax |].
  unfold OmdbSpec.decimal_integer_string, ParseInt. cbn zeta.
  rewrite (orb_comm (c =? "+")%char). intros H.
  assert (Hfail : forall digits neg,
            ParseUint digits = (0, Some ErrSyntax) \/
            ParseUint digits = (maxUint64, Some ErrRange) ->
            exists kind,
              match ParseUint digits with
              | (_, Some ErrSyntax) => inr ErrSyntax
              | (un, _) =>
                  if negb neg && (un >=? 2 ^ 63) then inr ErrRange
                  else if neg && (un >? 2 ^ 63) then inr ErrRange
                  else @inl Z convErr (if neg then - un else un)
              end = inr kind).
  { intros digits neg [-> | ->]; [now exists ErrSyntax |].
    exists ErrRange. destruct neg; reflexivity. }
  apply Hfail.
  destruct ((c =? "-")%char || (c =? "+")%char).
  - destruct rest as [| c' rest']; [now left |].
    cbn [String.eqb negb andb] in H. unfold ParseUint.
    now apply ParseUint_digits_not_digits.
  - unfold ParseUint. now apply ParseUint_digits_not_digits.
Qed.

(** A text that is not a decimal integer does not read as a number:
    [strconv.Atoi] returns a [*NumError] that names [Atoi] and the text. *)
Lemma Atoi_not_decimal (s : string) :
  OmdbSpec.decimal_integer_string s = false ->
  exists kind, Atoi s = inr (mkNumError "Atoi" s kind).
Proof.
  intros H. unfold Atoi.
  destruct ((0 <? String.length s)%nat && (String.length s <? 19)%nat).
  - exists ErrSyntax. now rewrite parse_decimal_not_decimal.
  - destruct (ParseInt_not_decimal s H) as (kind & ->). now exists kind.
Qed.

(** Which of its two errors [strconv.Atoi] returns: on a long text the
    digits read so far may overflow before a byte that is no digit is
    reached, and the error is then the range error. *)
Lemma Atoi_error_kinds :
  Atoi "" = inr (mkNumError "Atoi" "" ErrSyntax) /\
  Atoi "N/A" = inr (mkNumError "Atoi" "N/A" ErrSyntax) /\
  Atoi "9223372036854775808" = inr (mkNumError "Atoi" "9223372036854775808" ErrRange) /\
  Atoi "9223372036854775808x" = inr (mkNumError "Atoi" "9223372036854775808x" ErrSyntax) /\
  Atoi "99999999999999999999x" = inr (mkNumError "Atoi" "99999999999999999999x" ErrRange) /\
  Atoi "-9223372036854775808" = inl min_int.
Proof. repeat split. Qed.

(** Whatever [strconv.Atoi] refuses, its error names [Atoi] and the text. *)
Lemma Atoi_error (s : string) (ne : NumError) :
  Atoi s = inr ne -> Func ne = "Atoi" /\ Num ne = s.
Proof.
  unfold Atoi.
  destruct ((0 <? String.length s)%nat && (String.length s <? 19)%nat).
  - destruct (parse_decimal s); [discriminate |]. intros H. now injection H as <-.
  - destruct (ParseInt s); [discriminate |]. intros H. now injection H as <-.
Qed.

(** ** The fixtures are honest providers *)

Lemma omdb_paginated_honest (ctx : Context) (query : string) :
  OmdbSpec.honest Fixtures.omdb_corpus 3 Fixtures.omdb_paginated ctx query.
Proof.
  split; [lia |]. intros p Hp.
  change (num_pages (List.length Fixtures.omdb_corpus) 3) with 2%nat in Hp.
  assert (Hcases : p = 1 \/ p = 2) by lia.
  destruct Hcases as [-> | ->]; eexists; eexists; (split; [reflexivity |]);
    left; repeat split; reflexivity.
Qed.

Lemma tmdb_one_page_honest (ctx : Context) (query : string) :
  TmdbSpec.honest Fixtures.tmdb_corpus 20 Fixtures.tmdb_one_page ctx query.
Proof.
  split; [lia |]. split; [vm_compute; discriminate |]. intros p Hp.
  change (num_pages (List.length Fixtures.tmdb_corpus) 20) with 1%nat in Hp.
  assert (p = 1) as -> by lia.
  eexists. split; [reflexivity |]. repeat split. now right.
Qed.

(** * The claims *)

(** ** C1: the quota and the size of the corpus *)

(** Against an honest TMDB provider whose corpus of three entries holds a
    person, a call asking for three results returns two. *)
Lemma tmdb_person_run :
  Tmdb.Search Fixtures.makeslice_amd64 1 Fixtures.tmdb_one_page Background "Star Wars" 3 =
  Some (Returns (mkOutcome
          [ Tmdb.convert (Fixtures.tmdb_item "a" "movie" 11) Movie;
            Tmdb.convert (Fixtures.tmdb_item "c" "tv" 13) Series ]
          None
          [ Tmdb.request Fixtures.tmdb_one_page Background "Star Wars" 1 ])).
Proof. reflexivity. Qed.

(** C1, as stated, fails: it is not so that against every honest provider
    holding [T] results a successful call returns [maxResults] results when
    [T >= maxResults] and [T] results otherwise.  The TMDB corpus of the
    fixture holds three results, one of them a person; the call asks for
    three and returns two. *)
Lemma C1_counterexample :
  ~ (forall (makeslice : Z -> bool) (corpus : list Tmdb.tmdbItem) (size : nat)
            (os : Tmdb.TmdbSearcher) (ctx : Context) (query : string) (maxResults : Z)
            (fuel : nat) (o : Outcome),
        TmdbSpec.honest corpus size os ctx query ->
        Tmdb.Search makeslice fuel os ctx query maxResults = Some (Returns o) ->
        err o = None ->
        len (returned o) <= maxResults /\
        len (returned o) =
          if len corpus >=? maxResults then maxResults else len corpus).
Proof.
  intros H.
  destruct (H Fixtures.makeslice_amd64 Fixtures.tmdb_corpus 20%nat Fixtures.tmdb_one_page
              Background "Star Wars" 3 1%nat _ (tmdb_one_page_honest _ _) tmdb_person_run
              eq_refl) as [_ Hlen].
  vm_compute in Hlen. discriminate.
Qed.

(** C1, amended: a call of [Search] of either adapter that returns no error
    returns at most [maxResults] results; and against a provider that holds
    a corpus for the query and reports its totals honestly, a call whose
    capacity the runtime grants ([make] panics otherwise) returns the first
    [maxResults] canonical results of the corpus, where the canonical
    results are the corpus entries of a mapped type (every entry for OMDB,
    the "movie" and "tv" entries for TMDB): with [T] of them, the length is
    [maxResults] if [T >= maxResults] and [T] otherwise. *)
Theorem C1_quota_and_corpus
  (makeslice : Z -> bool)
  (oo : Omdb.OmdbSearcher) (ot : Tmdb.TmdbSearcher) (ctx : Context) (query : string)
  (maxResults : Z) (fuel : nat) :
  in_int maxResults ->
  (forall o, Omdb.Search makeslice fuel oo ctx query maxResults = Some (Returns o) ->
     err o = None -> len (returned o) <= maxResults) /\
  (forall o, Tmdb.Search makeslice fuel ot ctx query maxResults = Some (Returns o) ->
     err o = None -> len (returned o) <= maxResults) /\
  (forall corpus size,
     OmdbSpec.honest corpus size oo ctx query -> 1 <= maxResults ->
     makeslice maxResults = true ->
     (num_pages (List.length corpus) size <= fuel)%nat ->
     exists o, Omdb.Search makeslice fuel oo ctx query maxResults = Some (Returns o) /\
       err o = None /\
       returned o = firstn (Z.to_nat maxResults) (map Omdb.convert corpus) /\
       len (returned o) =
         if len corpus >=? maxResults then maxResults else len corpus) /\
  (forall corpus size,
     TmdbSpec.honest corpus size ot ctx query -> 1 <= maxResults ->
     makeslice maxResults = true ->
     (num_pages (List.length corpus) size <= fuel)%nat ->
     exists o, Tmdb.Search makeslice fuel ot ctx query maxResults = Some (Returns o) /\
       err o = None /\
       returned o = firstn (Z.to_nat maxResults) (TmdbSpec.mapped corpus) /\
       len (returned o) =
         if len (TmdbSpec.mapped corpus) >=? maxResults then maxResults
         else len (TmdbSpec.mapped corpus)).
Proof.
  intros HM.
  assert (Hcut : forall (l : list SearchResult), 1 <= maxResults ->
            len (firstn (Z.to_nat maxResults) l) =
            if len l >=? maxResults then maxResults else len l).
  { intros l H1. rewrite len_firstn by lia.
    rewrite Z.geb_leb. destruct (Z.leb_spec maxResults (len l)); lia. }
  repeat split.
  - intros o Ho He. pose proof (Search_with_valid _ _ _ _ _ Ho He) as H1.
    destruct (Search_with_no_error makeslice (Omdb.searchPage oo ctx query)
                (Omdb.request oo ctx query)
                (OmdbSpec.page_results oo ctx query) maxResults HM
                (omdb_searchPage_no_error oo ctx query) fuel o Ho He) as (n & _ & _ & ->).
    unfold len. rewrite length_firstn. lia.
  - intros o Ho He. pose proof (Search_with_valid _ _ _ _ _ Ho He) as H1.
    destruct (Search_with_no_error makeslice (Tmdb.searchPage ot ctx query)
                (Tmdb.request ot ctx query)
                (TmdbSpec.page_results ot ctx query) maxResults HM
                (tmdb_searchPage_no_error ot ctx query) fuel o Ho He) as (n & _ & _ & ->).
    unfold len. rewrite length_firstn. lia.
  - intros corpus size Hh H1 Hcap Hf.
    destruct (omdb_honest_Search makeslice corpus size oo ctx query maxResults fuel Hh)
      as (reqs & Hs); [unfold in_int in HM; lia | exact Hcap | exact Hf |].
    eexists. split; [exact Hs |]. cbn [err returned]. repeat split.
    rewrite Hcut by exact H1. now rewrite len_map.
  - intros corpus size Hh H1 Hcap Hf.
    destruct (tmdb_honest_Search makeslice corpus size ot ctx query maxResults fuel Hh)
      as (reqs & Hs); [unfold in_int in HM; lia | exact Hcap | exact Hf |].
    eexists. split; [exact Hs |]. cbn [err returned]. repeat split.
    now apply Hcut.
Qed.

(** The fixtures: six OMDB titles and a quota of five give five results,
    three TMDB entries with a person among them give two. *)
Lemma C1_quota_and_corpus_witness :
  in_int 5 /\ Fixtures.makeslice_amd64 5 = true /\
  (exists o, Omdb.Search Fixtures.makeslice_amd64 2 Fixtures.omdb_paginated Background
               "Test" 5 = Some (Returns o) /\
             len (returned o) = 5) /\
  (exists o, Tmdb.Search Fixtures.makeslice_amd64 2 Fixtures.tmdb_one_page Background
               "Test" 5 = Some (Returns o) /\
             len (returned o) = 2).
Proof.
  assert (H5 : in_int 5) by (unfold in_int, min_int, max_int; lia).
  destruct (C1_quota_and_corpus Fixtures.makeslice_amd64 Fixtures.omdb_paginated
              Fixtures.tmdb_one_page Background "Test" 5 2 H5) as (_ & _ & Ho & Ht).
  split; [exact H5 |]. split; [reflexivity |]. split.
  - destruct (Ho Fixtures.omdb_corpus 3%nat (omdb_paginated_honest _ _))
      as (o & Hs & _ & _ & Hl); [lia | reflexivity | vm_compute; lia |].
    exists o. split; [exact Hs | exact Hl].
  - destruct (Ht Fixtures.tmdb_corpus 20%nat (tmdb_one_page_honest _ _))
      as (o & Hs & _ & _ & Hl); [lia | reflexivity | vm_compute; lia |].
    exists o. split; [exact Hs | exact Hl].
Defined.

(** ** C2: a quota that is not positive *)

(** C2, on the code: for [maxResults <= 0] both [Search] methods return the
    nil slice and an error before any request is sent; the error is the
    value of [fmt.Errorf("invalid value for maxResults: %d", maxResults)],
    which [errors.As] does not match against [*InvalidMaxResultsError]. *)
Theorem C2_invalid_maxResults
  (makeslice : Z -> bool)
  (oo : Omdb.OmdbSearcher) (ot : Tmdb.TmdbSearcher) (ctx : Context) (query : string)
  (maxResults : Z) (fuel : nat) :
  maxResults <= 0 ->
  let e := Errorf "invalid value for maxResults: %d" (ArgInt maxResults) in
  Omdb.Search makeslice fuel oo ctx query maxResults =
    Some (Returns (mkOutcome [] (Some e) [])) /\
  Tmdb.Search makeslice fuel ot ctx query maxResults =
    Some (Returns (mkOutcome [] (Some e) [])) /\
  is_InvalidMaxResultsError e = false.
Proof.
  intros H. unfold Omdb.Search, Tmdb.Search, Search_with.
  destruct (Z.leb_spec maxResults 0); [| lia].
  repeat split.
Qed.

(** The input of [TestOmdbSearcher_Search_InvalidMaxResults]. *)
Lemma C2_invalid_maxResults_witness :
  0 <= 0 /\
  Omdb.Search Fixtures.makeslice_amd64 0 Fixtures.omdb_paginated Background "Test" 0 =
    Some (Returns
            (mkOutcome [] (Some (Errorf "invalid value for maxResults: %d" (ArgInt 0))) [])) /\
  is_InvalidMaxResultsError (Errorf "invalid value for maxResults: %d" (ArgInt 0)) = false.
Proof.
  assert (H0 : 0 <= 0) by lia.
  destruct (C2_invalid_maxResults Fixtures.makeslice_amd64 Fixtures.omdb_paginated
              Fixtures.tmdb_one_page Background "Test" 0 0 H0) as (Ho & _ & He).
  split; [exact H0 |]. split; [exact Ho | exact He].
Defined.

(** ** C3: the loop terminates against an honest provider *)

(** C3: for every [maxResults >= 1], against a provider that reports its
    totals honestly the loop of [Search] terminates, for both adapters: with
    as many iterations as the corpus has pages the call ends, and when the
    runtime grants the capacity of the result slice (the loop is entered
    only then: [make] panics otherwise) it ends by returning, having sent no
    more requests than the corpus has pages. *)
Theorem C3_loop_terminates
  (makeslice : Z -> bool)
  (oo : Omdb.OmdbSearcher) (ot : Tmdb.TmdbSearcher) (ctx : Context) (query : string)
  (corpus_o : list Omdb.omdbItem) (size_o : nat)
  (corpus_t : list Tmdb.tmdbItem) (size_t : nat) (maxResults : Z) :
  1 <= maxResults <= max_int ->
  OmdbSpec.honest corpus_o size_o oo ctx query ->
  TmdbSpec.honest corpus_t size_t ot ctx query ->
  (forall fuel, (num_pages (List.length corpus_o) size_o <= fuel)%nat ->
     (exists run, Omdb.Search makeslice fuel oo ctx query maxResults = Some run) /\
     (makeslice maxResults = true ->
      exists o, Omdb.Search makeslice fuel oo ctx query maxResults = Some (Returns o) /\
                (List.length (requests o) <= num_pages (List.length corpus_o) size_o)%nat)) /\
  (forall fuel, (num_pages (List.length corpus_t) size_t <= fuel)%nat ->
     (exists run, Tmdb.Search makeslice fuel ot ctx query maxResults = Some run) /\
     (makeslice maxResults = true ->
      exists o, Tmdb.Search makeslice fuel ot ctx query maxResults = Some (Returns o) /\
                (List.length (requests o) <= num_pages (List.length corpus_t) size_t)%nat)).
Proof.
  intros HM Ho Ht.
  assert (Hint : in_int maxResults) by (unfold in_int, min_int, max_int in *; lia).
  assert (Hom : forall fuel, (num_pages (List.length corpus_o) size_o <= fuel)%nat ->
            makeslice maxResults = true ->
            exists o, Omdb.Search makeslice fuel oo ctx query maxResults = Some (Returns o) /\
              (List.length (requests o) <= num_pages (List.length corpus_o) size_o)%nat).
  { intros fuel Hf Hcap.
    destruct (omdb_honest_Search makeslice corpus_o size_o oo ctx query maxResults _
                Ho HM Hcap (le_n _)) as (reqs & Hs).
    eexists. split; [exact (Search_with_more_fuel _ _ _ _ _ _ Hf Hs) |].
    destruct (Search_with_no_error makeslice (Omdb.searchPage oo ctx query)
                (Omdb.request oo ctx query)
                (OmdbSpec.page_results oo ctx query) maxResults Hint
                (omdb_searchPage_no_error oo ctx query) _ _ Hs eq_refl) as (n & Hn & -> & _).
    now rewrite length_map, length_pages_from. }
  assert (Htm : forall fuel, (num_pages (List.length corpus_t) size_t <= fuel)%nat ->
            makeslice maxResults = true ->
            exists o, Tmdb.Search makeslice fuel ot ctx query maxResults = Some (Returns o) /\
              (List.length (requests o) <= num_pages (List.length corpus_t) size_t)%nat).
  { intros fuel Hf Hcap.
    destruct (tmdb_honest_Search makeslice corpus_t size_t ot ctx query maxResults _
                Ht HM Hcap (le_n _)) as (reqs & Hs).
    eexists. split; [exact (Search_with_more_fuel _ _ _ _ _ _ Hf Hs) |].
    destruct (Search_with_no_error makeslice (Tmdb.searchPage ot ctx query)
                (Tmdb.request ot ctx query)
                (TmdbSpec.page_results ot ctx query) maxResults Hint
                (tmdb_searchPage_no_error ot ctx query) _ _ Hs eq_refl) as (n & Hn & -> & _).
    now rewrite length_map, length_pages_from. }
  split; intros fuel Hf; (split; [| now auto]).
  - case_eq (makeslice maxResults); intros Hcap.
    + destruct (Hom fuel Hf Hcap) as (o & Hs & _). now exists (Returns o).
    + exists Panics. apply Search_with_panics; [lia | exact Hcap].
  - case_eq (makeslice maxResults); intros Hcap.
    + destruct (Htm fuel Hf Hcap) as (o & Hs & _). now exists (Returns o).
    + exists Panics. apply Search_with_panics; [lia | exact Hcap].
Qed.

(** The fixtures: two pages of OMDB titles, one page of TMDB entries. *)
Lemma C3_loop_terminates_witness :
  1 <= 10 <= max_int /\ Fixtures.makeslice_amd64 10 = true /\
  (exists o, Omdb.Search Fixtures.makeslice_amd64 2 Fixtures.omdb_paginated Background
               "Test" 10 = Some (Returns o) /\
             (List.length (requests o) <= 2)%nat) /\
  (exists o, Tmdb.Search Fixtures.makeslice_amd64 1 Fixtures.tmdb_one_page Background
               "Test" 10 = Some (Returns o) /\
             (List.length (requests o) <= 1)%nat).
Proof.
  assert (HM : 1 <= 10 <= max_int) by (unfold max_int; lia).
  destruct (C3_loop_terminates Fixtures.makeslice_amd64 Fixtures.omdb_paginated
              Fixtures.tmdb_one_page Background "Test" Fixtures.omdb_corpus 3
              Fixtures.tmdb_corpus 20 10 HM
              (omdb_paginated_honest _ _) (tmdb_one_page_honest _ _)) as (Ho & Ht).
  split; [exact HM |]. split; [reflexivity |]. split.
  - apply (Ho 2%nat); [vm_compute; lia | reflexivity].
  - apply (Ht 1%nat); [vm_compute; lia | reflexivity].
Defined.

(** ** C4: the not-found signal of OMDB *)

(** C4, as stated, fails where it says that the call returns the empty
    sequence: the not-found signal may answer a later page.  The first page
    of the fixture holds three titles and announces six, the second is the
    not-found signal; the call for five results succeeds and returns the
    three titles of the first page. *)
Lemma C4_counterexample :
  Omdb.client Fixtures.omdb_short_of_total
    (Omdb.request Fixtures.omdb_short_of_total Background "Test" 2) =
    inr (mkResponse StatusOK (inr (Omdb.mkOmdbResponse [] "" "Movie not found!"))) /\
  Omdb.Search Fixtures.makeslice_amd64 2 Fixtures.omdb_short_of_total Background "Test" 5 =
    Some (Returns (mkOutcome (map Omdb.convert (firstn 3 Fixtures.omdb_corpus)) None
            [ Omdb.request Fixtures.omdb_short_of_total Background "Test" 1;
              Omdb.request Fixtures.omdb_short_of_total Background "Test" 2 ])) /\
  map Omdb.convert (firstn 3 Fixtures.omdb_corpus) <> [].
Proof. repeat split. discriminate. Qed.

(** C4, amended: a decoded OMDB response whose [Error] field is the
    not-found sentinel makes the page fetch return no further page and no
    error and leave the slice as it was, whatever else the response holds;
    the loop ends there and the call, the capacity of its slice granted by
    the runtime, succeeds with a nil error, returning the results of the
    pages before it, which for the first page is the empty sequence. *)
Theorem C4_not_found
  (makeslice : Z -> bool) (os : Omdb.OmdbSearcher) (ctx : Context) (query : string)
  (status : Z) (r : Omdb.omdbResponse) (pageNumber : Z) :
  Omdb.client os (Omdb.request os ctx query pageNumber) = inr (mkResponse status (inr r)) ->
  Omdb.Error r = "Movie not found!" ->
  (forall remaining st, 1 <= remaining ->
     Omdb.searchPage os ctx query remaining pageNumber st =
     ((false, None),
      mkState (results st) (sent st ++ [Omdb.request os ctx query pageNumber]))) /\
  (forall fuel maxResults st, in_int maxResults -> len (results st) < maxResults ->
     Search_loop (Omdb.searchPage os ctx query) (S fuel) maxResults pageNumber st =
     Some (inr tt,
           mkState (results st) (sent st ++ [Omdb.request os ctx query pageNumber]))) /\
  (forall fuel maxResults, in_int maxResults -> 1 <= maxResults ->
     makeslice maxResults = true -> pageNumber = 1 ->
     Omdb.Search makeslice (S fuel) os ctx query maxResults =
     Some (Returns (mkOutcome [] None [Omdb.request os ctx query 1]))).
Proof.
  intros Hc HE.
  assert (Hpage : forall remaining st, 1 <= remaining ->
            Omdb.searchPage os ctx query remaining pageNumber st =
            ((false, None),
             mkState (results st) (sent st ++ [Omdb.request os ctx query pageNumber]))).
  { intros m st Hm. unfold Omdb.searchPage.
    destruct (Z.leb_spec m 0); [lia |].
    rewrite Hc. cbn [Body]. rewrite HE. reflexivity. }
  assert (Hloop : forall fuel maxResults st, in_int maxResults ->
            len (results st) < maxResults ->
            Search_loop (Omdb.searchPage os ctx query) (S fuel) maxResults pageNumber st =
            Some (inr tt,
                  mkState (results st) (sent st ++ [Omdb.request os ctx query pageNumber]))).
  { intros fuel M st HM Hlt. apply Search_loop_last; [exact HM | exact Hlt |].
    apply Hpage. lia. }
  split; [exact Hpage |]. split; [exact Hloop |].
  intros fuel M HM H1 Hcap ->. unfold Omdb.Search, Search_with.
  destruct (Z.leb_spec M 0); [lia |]. rewrite Hcap. cbn [negb].
  rewrite Hloop; [reflexivity | exact HM | cbn; lia].
Qed.

(** The fixture of [TestOmdbSearcher_Search_NotFound]. *)
Lemma C4_not_found_witness :
  Omdb.client Fixtures.omdb_not_found
    (Omdb.request Fixtures.omdb_not_found Background "Unknown" 1) =
    inr (mkResponse StatusOK (inr (Omdb.mkOmdbResponse [] "" "Movie not found!"))) /\
  Fixtures.makeslice_amd64 5 = true /\
  Omdb.Search Fixtures.makeslice_amd64 1 Fixtures.omdb_not_found Background "Unknown" 5 =
    Some (Returns (mkOutcome [] None
            [Omdb.request Fixtures.omdb_not_found Background "Unknown" 1])).
Proof.
  split; [reflexivity |]. split; [reflexivity |].
  destruct (C4_not_found Fixtures.makeslice_amd64 Fixtures.omdb_not_found Background
              "Unknown" StatusOK
              (Omdb.mkOmdbResponse [] "" "Movie not found!") 1 eq_refl eq_refl)
    as (_ & _ & Hs).
  apply Hs; [unfold in_int, min_int, max_int; lia | lia | reflexivity | reflexivity].
Defined.

(** ** C5: entries of a type outside [ResultType] *)

(** The TMDB adapter does what C5 says: a page's entries of a native type
    other than "movie" and "tv" add nothing to the slice and leave the
    quota alone, wherever they stand in the page. *)
Lemma tmdb_skips_unmapped (result : Tmdb.tmdbItem) (before after : list Tmdb.tmdbItem)
  (remaining : Z) (rs : list SearchResult) :
  Tmdb.resultType_of (Tmdb.item_Type result) = None ->
  0 <= remaining <= max_int ->
  Tmdb.range_Result (before ++ result :: after) remaining rs =
  Tmdb.range_Result (before ++ after) remaining rs.
Proof.
  intros Hty Hm. rewrite !tmdb_range_Result by exact Hm.
  rewrite !mapped_app. cbn [TmdbSpec.mapped flat_map]. rewrite Hty. reflexivity.
Qed.

(** C5, on the code: the OMDB adapter has no mapping step.  A page whose
    only entry has the native type "game" and a quota of one: the entry is
    returned, its [Type] outside [Movie], [Series] and [Episode], and it
    used the quota up; the TMDB adapter on a page with a person returns the
    two other entries. *)
Theorem C5_omdb_keeps_unmapped_type :
  let g := Fixtures.omdb_item "g" "game" in
  Omdb.Search Fixtures.makeslice_amd64 1 Fixtures.omdb_game Background "Test" 1 =
    Some (Returns (mkOutcome [Omdb.convert g] None
            [Omdb.request Fixtures.omdb_game Background "Test" 1])) /\
  Type_ (Omdb.convert g) = "game" /\
  Omdb.range_Result [g] 1 [] = (0, [Omdb.convert g]) /\
  Tmdb.range_Result Fixtures.tmdb_corpus 2 [] =
    (0, [ Tmdb.convert (Fixtures.tmdb_item "a" "movie" 11) Movie;
          Tmdb.convert (Fixtures.tmdb_item "c" "tv" 13) Series ]).
Proof. repeat split. Qed.

(** ** C6: failures the provider reports *)




(** ** C7: a body that does not decode *)

(** C7, on the code: when the body of a page's response fails to decode,
    both adapters hand the decoder's error back as it is and [Search], the
    capacity of its slice granted by the runtime, returns nil with that very
    error; it is not a [*ResultParsingError] and nothing wraps it. *)
Theorem C7_decode_failure
  (makeslice : Z -> bool)
  (oo : Omdb.OmdbSearcher) (ot : Tmdb.TmdbSearcher) (ctx : Context) (query : string)
  (status_o status_t : Z) (msg : string) (maxResults : Z) (fuel : nat) :
  in_int maxResults -> 1 <= maxResults -> makeslice maxResults = true ->
  Omdb.client oo (Omdb.request oo ctx query 1) =
    inr (mkResponse status_o (inl (ForeignError msg))) ->
  Tmdb.client ot (Tmdb.request ot ctx query 1) =
    inr (mkResponse status_t (inl (ForeignError msg))) ->
  Omdb.Search makeslice (S fuel) oo ctx query maxResults =
    Some (Returns (mkOutcome [] (Some (ForeignError msg)) [Omdb.request oo ctx query 1])) /\
  Tmdb.Search makeslice (S fuel) ot ctx query maxResults =
    Some (Returns (mkOutcome [] (Some (ForeignError msg)) [Tmdb.request ot ctx query 1])) /\
  is_ResultParsingError (ForeignError msg) = false.
Proof.
  intros HM H1 Hcap Ho Ht.
  assert (Hlt : len (results (mkState [] [])) < maxResults) by (cbn; lia).
  repeat split.
  - unfold Omdb.Search, Search_with. destruct (Z.leb_spec maxResults 0); [lia |].
    rewrite Hcap. cbn [negb].
    rewrite Search_loop_error
      with (b := false) (e := ForeignError msg)
           (st' := mkState [] [Omdb.request oo ctx query 1]);
      [reflexivity | exact HM | exact Hlt |].
    unfold Omdb.searchPage. cbn [results len List.length Z.of_nat].
    destruct (Z.leb_spec (maxResults - 0) 0); [lia |]. now rewrite Ho.
  - unfold Tmdb.Search, Search_with. destruct (Z.leb_spec maxResults 0); [lia |].
    rewrite Hcap. cbn [negb].
    rewrite Search_loop_error
      with (b := false) (e := ForeignError msg)
           (st' := mkState [] [Tmdb.request ot ctx query 1]);
      [reflexivity | exact HM | exact Hlt |].
    unfold Tmdb.searchPage. cbn [results len List.length Z.of_nat].
    destruct (Z.leb_spec (maxResults - 0) 0); [lia |]. now rewrite Ht.
Qed.

(** The fixtures of the two ResultParsingError tests. *)
Lemma C7_decode_failure_witness :
  in_int 5 /\ 1 <= 5 /\ Fixtures.makeslice_amd64 5 = true /\
  Omdb.Search Fixtures.makeslice_amd64 1 Fixtures.omdb_bad_json Background "Test" 5 =
    Some (Returns (mkOutcome [] (Some Fixtures.decode_failure)
            [Omdb.request Fixtures.omdb_bad_json Background "Test" 1])) /\
  Tmdb.Search Fixtures.makeslice_amd64 1 Fixtures.tmdb_bad_json Background "Test" 5 =
    Some (Returns (mkOutcome [] (Some Fixtures.decode_failure)
            [Tmdb.request Fixtures.tmdb_bad_json Background "Test" 1])) /\
  is_ResultParsingError Fixtures.decode_failure = false.
Proof.
  assert (H5 : in_int 5) by (unfold in_int, min_int, max_int; lia).
  assert (H1 : 1 <= 5) by lia.
  split; [exact H5 |]. split; [exact H1 |]. split; [reflexivity |].
  exact (C7_decode_failure Fixtures.makeslice_amd64 Fixtures.omdb_bad_json
           Fixtures.tmdb_bad_json Background "Test"
           StatusOK StatusOK "unexpected EOF" 5 0 H5 H1 eq_refl eq_refl eq_refl).
Defined.

(** ** C8: when a page fetch asks for a further page *)

(** C8: a page fetch that reports no error reports a further page exactly
    when the provider reports more beyond this page and the mapping step
    left the quota unmet, that is, appended fewer results than the quota it
    was given.  TMDB: the page number is below [total_pages].  OMDB: the
    response is not the not-found signal and the length of the whole
    slice, all pages of the call so far included, is below
    [totalResults]. *)
Theorem C8_hasMorePages
  (oo : Omdb.OmdbSearcher) (ot : Tmdb.TmdbSearcher) (ctx : Context) (query : string)
  (remaining pageNumber : Z) (st : State) :
  1 <= remaining <= max_int ->
  (forall hasMorePages st',
     Omdb.searchPage oo ctx query remaining pageNumber st = ((hasMorePages, None), st') ->
     exists status r,
       Omdb.client oo (Omdb.request oo ctx query pageNumber) =
         inr (mkResponse status (inr r)) /\
       (hasMorePages = true <->
        (Omdb.Error r <> "Movie not found!" /\
         exists totalResults, Atoi (Omdb.TotalResults r) = inl totalResults /\
                              len (results st') < totalResults) /\
        len (results st') < len (results st) + remaining)) /\
  (forall hasMorePages st',
     Tmdb.searchPage ot ctx query remaining pageNumber st = ((hasMorePages, None), st') ->
     exists r,
       Tmdb.client ot (Tmdb.request ot ctx query pageNumber) =
         inr (mkResponse StatusOK (inr r)) /\
       (hasMorePages = true <->
        pageNumber < Tmdb.TotalPages r /\
        len (results st') < len (results st) + remaining)).
Proof.
  intros Hm.
  assert (Hquota : forall (items : list SearchResult),
            len (results st ++ firstn (Z.to_nat remaining) items)
              < len (results st) + remaining <-> len items < remaining).
  { intros items. rewrite len_app, len_firstn by lia. lia. }
  split; intros b st' H.
  - destruct (Omdb.client oo (Omdb.request oo ctx query pageNumber))
      as [e | [status [e | r]]] eqn:Hc.
    + unfold Omdb.searchPage in H. destruct (Z.leb_spec remaining 0); [lia |].
      rewrite Hc in H. discriminate.
    + unfold Omdb.searchPage in H. destruct (Z.leb_spec remaining 0); [lia |].
      rewrite Hc in H. discriminate.
    + exists status, r. split; [reflexivity |].
      rewrite (omdb_searchPage_decoded _ _ _ _ _ _ _ _ Hm Hc) in H. cbn zeta in H.
      unfold OmdbSpec.notFound in H.
      destruct (String.eqb_spec (Omdb.Error r) "Movie not found!") as [HE | HE].
      * injection H as <- <-. split; [discriminate | tauto].
      * destruct (negb (String.eqb (Omdb.Error r) "")); [discriminate |].
        destruct (Atoi (Omdb.TotalResults r)) as [T | e] eqn:HT; [| discriminate].
        injection H as <- <-. cbn [results].
        rewrite andb_true_iff, Z.ltb_lt, Z.gtb_lt, remaining_after_pos, Hquota, len_map.
        split.
        -- intros [H1 H2]. split; [| exact H2]. split; [exact HE |]. now exists T.
        -- intros [[_ (T' & HT' & H1)] H2]. injection HT' as <-. now split.
  - destruct (Tmdb.client ot (Tmdb.request ot ctx query pageNumber))
      as [e | [status [e | r]]] eqn:Hc.
    + unfold Tmdb.searchPage in H. destruct (Z.leb_spec remaining 0); [lia |].
      rewrite Hc in H. discriminate.
    + unfold Tmdb.searchPage in H. destruct (Z.leb_spec remaining 0); [lia |].
      rewrite Hc in H. discriminate.
    + rewrite (tmdb_searchPage_decoded _ _ _ _ _ _ _ _ Hm Hc) in H. cbn zeta in H.
      destruct (Z.eqb_spec status StatusOK) as [-> | Hs]; [| discriminate].
      cbn [negb orb] in H.
      match type of H with (if ?c then _ else _) = _ => destruct c end; [discriminate |].
      exists r. split; [reflexivity |].
      injection H as <- <-. cbn [results].
      now rewrite andb_true_iff, Z.ltb_lt, Z.gtb_lt, remaining_after_pos, Hquota.
Qed.

(** The first page of the paginated OMDB fixture, fetched with a quota of
    five, asks for the second: the quota is not met. *)
Lemma C8_hasMorePages_witness :
  1 <= 5 <= max_int /\
  Omdb.searchPage Fixtures.omdb_paginated Background "Test" 5 1 (mkState [] []) =
    ((true, None),
     mkState (map Omdb.convert (page_slice Fixtures.omdb_corpus 3 1))
       [Omdb.request Fixtures.omdb_paginated Background "Test" 1]) /\
  len (map Omdb.convert (page_slice Fixtures.omdb_corpus 3 1)) < len (@nil SearchResult) + 5.
Proof.
  assert (H5 : 1 <= 5 <= max_int) by (unfold max_int; lia).
  destruct (C8_hasMorePages Fixtures.omdb_paginated Fixtures.tmdb_one_page Background "Test"
              5 1 (mkState [] []) H5) as (Ho & _).
  split; [exact H5 |]. split; [reflexivity |].
  destruct (Ho true _ eq_refl) as (status & r & _ & Hiff).
  exact (proj2 (proj1 Hiff eq_refl)).
Defined.

(** ** C9: the order of the returned sequence *)

(** C9: a call of [Search] of either adapter that returns no error fetched
    pages 1, 2, ... one after the other, each page number the increment of
    the one before, and returns the concatenation, in that order, of what
    each page contributes, the provider's items of the page in the
    provider's order, cut at [maxResults]; nothing is reordered.  (Short of
    2^63 fetches the page numbers are the integers from 1 upwards.)  Against
    a provider that serves a corpus page by page such a call, the capacity
    of its slice granted by the runtime, does return, and what it returns is
    the beginning of the corpus, in the order of the corpus. *)
Theorem C9_order
  (makeslice : Z -> bool)
  (oo : Omdb.OmdbSearcher) (ot : Tmdb.TmdbSearcher) (ctx : Context) (query : string)
  (maxResults : Z) (fuel : nat) :
  in_int maxResults ->
  (forall o, Omdb.Search makeslice fuel oo ctx query maxResults = Some (Returns o) ->
     err o = None ->
     exists n,
       requests o = map (Omdb.request oo ctx query) (pages_from 1 n) /\
       returned o =
         firstn (Z.to_nat maxResults)
           (flat_map (OmdbSpec.page_results oo ctx query) (pages_from 1 n)) /\
       (Z.of_nat n <= max_int -> pages_from 1 n = page_numbers n)) /\
  (forall o, Tmdb.Search makeslice fuel ot ctx query maxResults = Some (Returns o) ->
     err o = None ->
     exists n,
       requests o = map (Tmdb.request ot ctx query) (pages_from 1 n) /\
       returned o =
         firstn (Z.to_nat maxResults)
           (flat_map (TmdbSpec.page_results ot ctx query) (pages_from 1 n)) /\
       (Z.of_nat n <= max_int -> pages_from 1 n = page_numbers n)) /\
  (forall corpus size,
     OmdbSpec.honest corpus size oo ctx query -> 1 <= maxResults ->
     makeslice maxResults = true ->
     (num_pages (List.length corpus) size <= fuel)%nat ->
     exists reqs, Omdb.Search makeslice fuel oo ctx query maxResults =
       Some (Returns (mkOutcome (firstn (Z.to_nat maxResults) (map Omdb.convert corpus))
               None reqs))) /\
  (forall corpus size,
     TmdbSpec.honest corpus size ot ctx query -> 1 <= maxResults ->
     makeslice maxResults = true ->
     (num_pages (List.length corpus) size <= fuel)%nat ->
     exists reqs, Tmdb.Search makeslice fuel ot ctx query maxResults =
       Some (Returns (mkOutcome (firstn (Z.to_nat maxResults) (TmdbSpec.mapped corpus))
               None reqs))).
Proof.
  intros HM. split; [| split; [| split]].
  - intros o Ho He.
    destruct (Search_with_no_error makeslice (Omdb.searchPage oo ctx query)
                (Omdb.request oo ctx query)
                (OmdbSpec.page_results oo ctx query) maxResults HM
                (omdb_searchPage_no_error oo ctx query) fuel o Ho He) as (n & _ & Hq & Hr).
    exists n. repeat split; [exact Hq | exact Hr | apply pages_from_one].
  - intros o Ho He.
    destruct (Search_with_no_error makeslice (Tmdb.searchPage ot ctx query)
                (Tmdb.request ot ctx query)
                (TmdbSpec.page_results ot ctx query) maxResults HM
                (tmdb_searchPage_no_error ot ctx query) fuel o Ho He) as (n & _ & Hq & Hr).
    exists n. repeat split; [exact Hq | exact Hr | apply pages_from_one].
  - intros corpus size Hh H1 Hcap Hf.
    apply (omdb_honest_Search makeslice corpus size);
      [exact Hh | unfold in_int in HM; lia | exact Hcap | exact Hf].
  - intros corpus size Hh H1 Hcap Hf.
    apply (tmdb_honest_Search makeslice corpus size);
      [exact Hh | unfold in_int in HM; lia | exact Hcap | exact Hf].
Qed.

(** The pagination fixture: three titles of page 1, then the first two of
    page 2. *)
Lemma C9_order_witness :
  in_int 5 /\ Fixtures.makeslice_amd64 5 = true /\
  (exists n,
    map (Omdb.request Fixtures.omdb_paginated Background "Test") [1; 2] =
      map (Omdb.request Fixtures.omdb_paginated Background "Test") (pages_from 1 n) /\
    map Omdb.convert (firstn 5 Fixtures.omdb_corpus) =
      firstn 5 (flat_map (OmdbSpec.page_results Fixtures.omdb_paginated Background "Test")
                  (pages_from 1 n))) /\
  (exists reqs,
    Omdb.Search Fixtures.makeslice_amd64 2 Fixtures.omdb_paginated Background "Test" 5 =
      Some (Returns (mkOutcome (firstn 5 (map Omdb.convert Fixtures.omdb_corpus))
              None reqs))).
Proof.
  assert (H5 : in_int 5) by (unfold in_int, min_int, max_int; lia).
  split; [exact H5 |]. split; [reflexivity |].
  destruct (C9_order Fixtures.makeslice_amd64 Fixtures.omdb_paginated
              Fixtures.tmdb_one_page Background "Test" 5 2 H5)
    as (Ho & _ & Hc & _).
  split.
  - destruct (Ho _ eq_refl eq_refl) as (n & Hq & Hr & _).
    exists n. split; [exact Hq | exact Hr].
  - apply (Hc Fixtures.omdb_corpus 3%nat (omdb_paginated_honest _ _));
      [lia | reflexivity | vm_compute; lia].
Defined.

(** ** C10: a [totalResults] that is not a number *)

(** C10: when an OMDB response decodes, has an empty [Error] field and a
    [totalResults] that [strconv.Atoi] does not parse (text that is not an
    optional sign and digits, the empty string of a missing key included,
    or digits out of the range of [int]), the page fetch fails with the
    error "failed to convert totalResults to int" around the error of
    [strconv.Atoi], which names the function and the text, after the items
    of the page were appended to the slice; the loop of [Search] ends there
    and the call, the capacity of its slice granted by the runtime, returns
    nil and that error, so none of the results gathered. *)
Theorem C10_totalResults_not_a_number
  (makeslice : Z -> bool) (os : Omdb.OmdbSearcher) (ctx : Context) (query : string)
  (status : Z) (r : Omdb.omdbResponse) (ne : NumError) (pageNumber maxResults : Z)
  (st : State) (fuel : nat) :
  in_int maxResults ->
  len (results st) < maxResults ->
  Omdb.client os (Omdb.request os ctx query pageNumber) = inr (mkResponse status (inr r)) ->
  Omdb.Error r = "" ->
  Strconv.Atoi (Omdb.TotalResults r) = inr ne ->
  let e := Errorf "failed to convert totalResults to int: %v" (ArgError (ConvError ne)) in
  let st' := mkState
               (results st
                ++ firstn (Z.to_nat (maxResults - len (results st)))
                     (map Omdb.convert (Omdb.Result r)))
               (sent st ++ [Omdb.request os ctx query pageNumber]) in
  (Func ne = "Atoi" /\ Num ne = Omdb.TotalResults r) /\
  Omdb.searchPage os ctx query (maxResults - len (results st)) pageNumber st =
    ((false, Some e), st') /\
  Search_loop (Omdb.searchPage os ctx query) (S fuel) maxResults pageNumber st =
    Some (inl e, st') /\
  (pageNumber = 1 -> st = mkState [] [] -> makeslice maxResults = true ->
   Omdb.Search makeslice (S fuel) os ctx query maxResults =
     Some (Returns (mkOutcome [] (Some e) [Omdb.request os ctx query 1]))).
Proof.
  intros HM Hlt Hc HE HT e st'. pose proof (len_nonneg (results st)) as Hl0.
  assert (Hm : 1 <= maxResults - len (results st) <= max_int)
    by (unfold in_int, min_int, max_int in *; lia).
  assert (Hpage : Omdb.searchPage os ctx query (maxResults - len (results st)) pageNumber st =
                  ((false, Some e), st')).
  { rewrite (omdb_searchPage_decoded _ _ _ _ _ _ _ _ Hm Hc). cbn zeta.
    rewrite HE, HT. reflexivity. }
  assert (Hloop : Search_loop (Omdb.searchPage os ctx query) (S fuel) maxResults pageNumber st =
                  Some (inl e, st')).
  { eapply Search_loop_error; eassumption. }
  split; [exact (Atoi_error _ _ HT) |].
  split; [exact Hpage |]. split; [exact Hloop |].
  intros -> -> Hcap. unfold Omdb.Search, Search_with.
  cbn [results len List.length Z.of_nat] in Hlt.
  destruct (Z.leb_spec maxResults 0); [lia |]. rewrite Hcap. cbn [negb].
  rewrite Hloop. reflexivity.
Qed.

(** A page of two titles whose body has no [totalResults] key. *)
Lemma C10_totalResults_not_a_number_witness :
  in_int 5 /\ len (results (mkState [] [])) < 5 /\
  Strconv.Atoi "" = inr (mkNumError "Atoi" "" ErrSyntax) /\
  Fixtures.makeslice_amd64 5 = true /\
  Omdb.Search Fixtures.makeslice_amd64 1 Fixtures.omdb_no_total Background "Test" 5 =
    Some (Returns (mkOutcome []
            (Some (Errorf "failed to convert totalResults to int: %v"
                     (ArgError (ConvError (mkNumError "Atoi" "" ErrSyntax)))))
            [Omdb.request Fixtures.omdb_no_total Background "Test" 1])).
Proof.
  assert (H5 : in_int 5) by (unfold in_int, min_int, max_int; lia).
  assert (Hlt : len (results (mkState [] [])) < 5) by (cbn; lia).
  split; [exact H5 |]. split; [exact Hlt |]. split; [reflexivity |].
  split; [reflexivity |].
  refine (proj2 (proj2 (proj2
            (C10_totalResults_not_a_number Fixtures.makeslice_amd64
               Fixtures.omdb_no_total Background
               "Test" StatusOK _ _ 1 5 (mkState [] []) 0 H5 Hlt
               eq_refl eq_refl eq_refl))) eq_refl eq_refl eq_refl).
Defined.

(** * Further properties of the adapters *)

(** ** What the loop asks of [searchPage] *)

(** The loop calls [searchPage] with quotas between 1 and [M] only: two
    page functions that agree there give the same loop. *)
Lemma Search_loop_agree (sp sp' : Z -> Z -> State -> (bool * option error) * State)
  (M : Z) (fuel : nat) :
  in_int M ->
  (forall m p st, 1 <= m <= M -> sp m p st = sp' m p st) ->
  forall p st, Search_loop sp fuel M p st = Search_loop sp' fuel M p st.
Proof.
  intros HM Hagree. induction fuel as [| fuel IH]; intros p st; [reflexivity |].
  cbn [Search_loop]. destruct (Z.ltb_spec (len (results st)) M) as [Hlt | Hge]; [| reflexivity].
  pose proof (len_nonneg (results st)) as Hl0.
  rewrite int_sub_exact by (unfold in_int, min_int, max_int in *; lia).
  rewrite Hagree by lia.
  destruct (sp' (M - len (results st)) p st) as [[b [e |]] st1]; [reflexivity |].
  destruct (negb b); [reflexivity | apply IH].
Qed.

Lemma Search_with_agree (makeslice : Z -> bool)
  (sp sp' : Z -> Z -> State -> (bool * option error) * State)
  (M : Z) (fuel : nat) :
  in_int M ->
  (forall m p st, 1 <= m <= M -> sp m p st = sp' m p st) ->
  Search_with makeslice sp fuel M = Search_with makeslice sp' fuel M.
Proof.
  intros HM Hagree. unfold Search_with.
  now rewrite (Search_loop_agree sp sp' M fuel HM Hagree).
Qed.

(** X1: [searchPage] of either adapter, given a quota that is not positive,
    returns the invalid-quota error and touches nothing: no request is sent
    and the slice is as it was.  [Search] never gets there: whatever
    [searchPage] did on such a quota, the call would return the same. *)
Theorem X1_searchPage_guard
  (makeslice : Z -> bool)
  (oo : Omdb.OmdbSearcher) (ot : Tmdb.TmdbSearcher) (ctx : Context) (query : string)
  (maxResults : Z) (fuel : nat)
  (other : Z -> Z -> State -> (bool * option error) * State) :
  in_int maxResults ->
  (forall m p st, m <= 0 ->
     Omdb.searchPage oo ctx query m p st =
       ((false, Some (Errorf "invalid value for maxResults: %d" (ArgInt m))), st) /\
     Tmdb.searchPage ot ctx query m p st =
       ((false, Some (Errorf "invalid value for maxResults: %d" (ArgInt m))), st)) /\
  Search_with makeslice
    (fun m p st => if m <=? 0 then other m p st
                   else Omdb.searchPage oo ctx query m p st) fuel maxResults
    = Omdb.Search makeslice fuel oo ctx query maxResults /\
  Search_with makeslice
    (fun m p st => if m <=? 0 then other m p st
                   else Tmdb.searchPage ot ctx query m p st) fuel maxResults
    = Tmdb.Search makeslice fuel ot ctx query maxResults.
Proof.
  intros HM. split; [| split].
  - intros m p st Hm. unfold Omdb.searchPage, Tmdb.searchPage.
    destruct (Z.leb_spec m 0); [split; reflexivity | lia].
  - apply Search_with_agree; [exact HM |]. intros m p st Hm.
    destruct (Z.leb_spec m 0); [lia | reflexivity].
  - apply Search_with_agree; [exact HM |]. intros m p st Hm.
    destruct (Z.leb_spec m 0); [lia | reflexivity].
Qed.

Lemma X1_searchPage_guard_witness :
  in_int 5 /\
  Search_with Fixtures.makeslice_amd64
    (fun m p st => if m <=? 0 then ((true, None), mkState [] [])
                   else Omdb.searchPage Fixtures.omdb_paginated Background "Test" m p st)
    2 5
  = Omdb.Search Fixtures.makeslice_amd64 2 Fixtures.omdb_paginated Background "Test" 5.
Proof.
  assert (H5 : in_int 5) by (unfold in_int, min_int, max_int; lia).
  split; [exact H5 |].
  exact (proj1 (proj2 (X1_searchPage_guard Fixtures.makeslice_amd64
                         Fixtures.omdb_paginated Fixtures.tmdb_one_page
                         Background "Test" 5 2 (fun _ _ _ => ((true, None), mkState [] [])) H5))).
Defined.

(** ** One page fetch, on every path *)

Lemma omdb_searchPage_outcome (os : Omdb.OmdbSearcher) (ctx : Context) (query : string)
  (m p : Z) (st : State) :
  1 <= m <= max_int ->
  exists b added,
    Omdb.searchPage os ctx query m p st =
      ((b, OmdbMore.page_error os ctx query p),
       mkState (results st ++ added) (sent st ++ [Omdb.request os ctx query p])) /\
    len added <= m /\
    (added = [] \/ exists status r,
       Omdb.client os (Omdb.request os ctx query p) = inr (mkResponse status (inr r)) /\
       added = firstn (Z.to_nat m) (map Omdb.convert (Omdb.Result r))).
Proof.
  intros Hm. unfold OmdbMore.page_error.
  destruct (Omdb.client os (Omdb.request os ctx query p)) as [e | [status [e | r]]] eqn:Hc.
  - exists false, []. unfold Omdb.searchPage. destruct (Z.leb_spec m 0); [lia |].
    rewrite Hc, app_nil_r. repeat split; [cbn; lia | now left].
  - exists false, []. unfold Omdb.searchPage. destruct (Z.leb_spec m 0); [lia |].
    rewrite Hc, app_nil_r. repeat split; [cbn; lia | now left].
  - rewrite (omdb_searchPage_decoded _ _ _ _ _ _ _ _ Hm Hc). cbn zeta. cbn [Body].
    unfold OmdbSpec.notFound.
    destruct (String.eqb (Omdb.Error r) "Movie not found!").
    { exists false, []. rewrite app_nil_r. repeat split; [cbn; lia | now left]. }
    destruct (negb (String.eqb (Omdb.Error r) "")).
    { exists false, []. rewrite app_nil_r. repeat split; [cbn; lia | now left]. }
    assert (Hlen : len (firstn (Z.to_nat m) (map Omdb.convert (Omdb.Result r))) <= m)
      by (rewrite len_firstn by lia; lia).
    destruct (Atoi (Omdb.TotalResults r)) as [T | e]; eexists; eexists;
      (split; [reflexivity |]); (split; [exact Hlen |]); right; eauto.
Qed.

Lemma tmdb_searchPage_outcome (os : Tmdb.TmdbSearcher) (ctx : Context) (query : string)
  (m p : Z) (st : State) :
  1 <= m <= max_int ->
  exists b added,
    Tmdb.searchPage os ctx query m p st =
      ((b, TmdbMore.page_error os ctx query p),
       mkState (results st ++ added) (sent st ++ [Tmdb.request os ctx query p])) /\
    len added <= m /\
    (added = [] \/ exists status r,
       Tmdb.client os (Tmdb.request os ctx query p) = inr (mkResponse status (inr r)) /\
       added = firstn (Z.to_nat m) (TmdbSpec.mapped (Tmdb.Result r))).
Proof.
  intros Hm. unfold TmdbMore.page_error.
  destruct (Tmdb.client os (Tmdb.request os ctx query p)) as [e | [status [e | r]]] eqn:Hc.
  - exists false, []. unfold Tmdb.searchPage. destruct (Z.leb_spec m 0); [lia |].
    rewrite Hc, app_nil_r. repeat split; [cbn; lia | now left].
  - exists false, []. unfold Tmdb.searchPage. destruct (Z.leb_spec m 0); [lia |].
    rewrite Hc, app_nil_r. repeat split; [cbn; lia | now left].
  - rewrite (tmdb_searchPage_decoded _ _ _ _ _ _ _ _ Hm Hc). cbn zeta. cbn [Body StatusCode].
    match goal with |- context [if ?c then _ else _] => destruct c end.
    { exists false, []. rewrite app_nil_r. repeat split; [cbn; lia | now left]. }
    eexists; eexists; split; [reflexivity |]. split; [rewrite len_firstn by lia; lia |].
    right; eauto.
Qed.

(** X2: whether a page fetch fails, and with which error, is decided by
    what the client gives back for the page's request alone (transport
    error, decode error, the provider's failure signal, for OMDB an
    unreadable [totalResults]): the quota and the results gathered so far
    have no part in it.  On every path the fetch sends exactly one request
    and only appends to the slice, at most as many results as the quota. *)
Theorem X2_page_fetch_paths
  (oo : Omdb.OmdbSearcher) (ot : Tmdb.TmdbSearcher) (ctx : Context) (query : string)
  (remaining pageNumber : Z) (st : State) :
  1 <= remaining <= max_int ->
  (exists hasMorePages added,
     Omdb.searchPage oo ctx query remaining pageNumber st =
       ((hasMorePages, OmdbMore.page_error oo ctx query pageNumber),
        mkState (results st ++ added) (sent st ++ [Omdb.request oo ctx query pageNumber])) /\
     len added <= remaining) /\
  (exists hasMorePages added,
     Tmdb.searchPage ot ctx query remaining pageNumber st =
       ((hasMorePages, TmdbMore.page_error ot ctx query pageNumber),
        mkState (results st ++ added) (sent st ++ [Tmdb.request ot ctx query pageNumber])) /\
     len added <= remaining).
Proof.
  intros Hm. split.
  - destruct (omdb_searchPage_outcome oo ctx query remaining pageNumber st Hm)
      as (b & added & H & Hl & _). now exists b, added.
  - destruct (tmdb_searchPage_outcome ot ctx query remaining pageNumber st Hm)
      as (b & added & H & Hl & _). now exists b, added.
Qed.

(** A page without [totalResults]: its two titles are appended, then the
    fetch fails, with any quota and any slice to start from. *)
Lemma X2_page_fetch_paths_witness :
  1 <= 7 <= max_int /\
  exists hasMorePages added,
    Omdb.searchPage Fixtures.omdb_no_total Background "Test" 7 3
      (mkState [Omdb.convert (Fixtures.omdb_item "z" "movie")] []) =
      ((hasMorePages, OmdbMore.page_error Fixtures.omdb_no_total Background "Test" 3),
       mkState ([Omdb.convert (Fixtures.omdb_item "z" "movie")] ++ added)
         ([] ++ [Omdb.request Fixtures.omdb_no_total Background "Test" 3])) /\
    len added <= 7.
Proof.
  assert (H7 : 1 <= 7 <= max_int) by (unfold max_int; lia).
  split; [exact H7 |].
  exact (proj1 (X2_page_fetch_paths Fixtures.omdb_no_total Fixtures.tmdb_one_page Background
                  "Test" 7 3 (mkState [Omdb.convert (Fixtures.omdb_item "z" "movie")] []) H7)).
Defined.

(** ** The requests of a call, whatever its outcome *)

Lemma pages_from_snoc (k : nat) :
  forall p, exists pl, pages_from p (S k) = pages_from p k ++ [pl].
Proof.
  induction k as [| k IH]; intros p.
  - exists p. reflexivity.
  - destruct (IH (int_add p 1)) as (pl & Hpl). exists pl.
    change (pages_from p (S (S k))) with (p :: pages_from (int_add p 1) (S k)).
    rewrite Hpl. reflexivity.
Qed.

Section EveryOutcome.

Variable searchPage : Z -> Z -> State -> (bool * option error) * State.
Variable request_of : Z -> Request.
Variable page_error : Z -> option error.
Variable M : Z.

Hypothesis M_int : in_int M.

Hypothesis page_outcome : forall m p st,
  1 <= m <= max_int ->
  exists b added,
    searchPage m p st =
      ((b, page_error p), mkState (results st ++ added) (sent st ++ [request_of p])) /\
    len added <= m.

(** However the loop ends, it fetched [n] pages one after the other; all
    but the last went through without error, and when the loop ends with
    an error it is the error of the last page fetched. *)
Lemma Search_loop_trace (fuel : nat) :
  forall p st out st',
    Search_loop searchPage fuel M p st = Some (out, st') ->
    exists n,
      (n <= fuel)%nat /\
      sent st' = sent st ++ map request_of (pages_from p n) /\
      (len (results st) < M -> (1 <= n)%nat) /\
      match out with
      | inl e =>
          exists k pl,
            n = S k /\ pages_from p n = pages_from p k ++ [pl] /\
            Forall (fun q => page_error q = None) (pages_from p k) /\
            page_error pl = Some e
      | inr _ => Forall (fun q => page_error q = None) (pages_from p n)
      end.
Proof.
  induction fuel as [| fuel IH]; intros p st out st' H; [discriminate |].
  cbn [Search_loop] in H.
  destruct (Z.ltb_spec (len (results st)) M) as [Hlt | Hge].
  - pose proof (len_nonneg (results st)) as Hl0.
    assert (Hm : 1 <= M - len (results st) <= max_int)
      by (unfold in_int, min_int, max_int in *; lia).
    rewrite int_sub_exact in H by (unfold in_int, min_int, max_int in *; lia).
    destruct (page_outcome (M - len (results st)) p st Hm) as (b & added & Hp & _).
    rewrite Hp in H. destruct (page_error p) as [e |] eqn:He.
    + injection H as <- <-. exists 1%nat. cbn [pages_from map sent].
      repeat split; [lia | lia |]. exists 0%nat, p. repeat split; [constructor | exact He].
    + destruct b; cbn [negb] in H.
      * apply IH in H as (n & Hn & Hs & _ & Hout). exists (S n).
        cbn [sent] in Hs. cbn [pages_from map].
        split; [lia |]. split; [rewrite Hs, <- app_assoc; reflexivity |].
        split; [lia |]. destruct out as [e | u].
        -- destruct Hout as (k & pl & -> & Hpl & Hok & Hlast).
           exists (S k), pl. rewrite Hpl. cbn [pages_from].
           repeat split; [now constructor | exact Hlast].
        -- now constructor.
      * injection H as <- <-. exists 1%nat. cbn [pages_from map sent].
        repeat split; [lia | lia |]. constructor; [exact He | constructor].
  - injection H as <- <-. exists 0%nat. cbn [pages_from map].
    rewrite app_nil_r. repeat split; [lia | lia | constructor].
Qed.

End EveryOutcome.

(** ** Why a call stops *)

Section WhyItStops.

Variable searchPage : Z -> Z -> State -> (bool * option error) * State.
Variable request_of : Z -> Request.
Variable page_results : Z -> list SearchResult.
Variable no_more : Z -> Z -> Prop.
Variable M : Z.

Hypothesis M_int : in_int M.

Hypothesis page_no_error : forall m p st st' b,
  1 <= m <= max_int ->
  searchPage m p st = ((b, None), st') ->
  sent st' = sent st ++ [request_of p] /\
  results st' = results st ++ firstn (Z.to_nat m) (page_results p) /\
  (b = true -> len (page_results p) < m).

Hypothesis page_stop : forall m p st st',
  1 <= m <= max_int ->
  searchPage m p st = ((false, None), st') ->
  len (results st') < len (results st) + m ->
  no_more p (len (results st')).

(** Falling out of the loop after [n] fetches: the pages before the last
    one left the quota unmet, and if the slice is still short of the quota
    the last page said that there is no more. *)
Lemma Search_loop_stops (fuel : nat) :
  forall p st st',
    Search_loop searchPage fuel M p st = Some (inr tt, st') ->
    exists n,
      sent st' = sent st ++ map request_of (pages_from p n) /\
      (forall k, n = S k ->
         len (results st) + len (flat_map page_results (pages_from p k)) < M) /\
      (len (results st') < M ->
       exists k pl, n = S k /\ pages_from p n = pages_from p k ++ [pl] /\
                    no_more pl (len (results st'))).
Proof.
  induction fuel as [| fuel IH]; intros p st st' H; [discriminate |].
  cbn [Search_loop] in H.
  destruct (Z.ltb_spec (len (results st)) M) as [Hlt | Hge].
  - pose proof (len_nonneg (results st)) as Hl0.
    assert (Hm : 1 <= M - len (results st) <= max_int)
      by (unfold in_int, min_int, max_int in *; lia).
    rewrite int_sub_exact in H by (unfold in_int, min_int, max_int in *; lia).
    destruct (searchPage (M - len (results st)) p st) as [[b [e |]] st1] eqn:Hp;
      [discriminate |].
    destruct (page_no_error _ _ _ _ _ Hm Hp) as (Hs & Hr & Hb).
    destruct b; cbn [negb] in H.
    + specialize (Hb eq_refl). rewrite firstn_past in Hr by lia.
      apply IH in H as (n & Hs' & Hbefore & Hlast). exists (S n).
      cbn [pages_from map]. split; [rewrite Hs', Hs, <- app_assoc; reflexivity |]. split.
      * intros k Hk. injection Hk as <-. destruct n as [| k'].
        -- cbn [pages_from flat_map]. unfold len at 2. cbn. lia.
        -- specialize (Hbefore k' eq_refl). cbn [pages_from flat_map].
           rewrite Hr, len_app in Hbefore. rewrite len_app. lia.
      * intros Hshort. destruct (Hlast Hshort) as (k & pl & -> & Hpl & Hno).
        exists (S k), pl. rewrite Hpl. cbn [pages_from].
        repeat split. exact Hno.
    + injection H as <-. exists 1%nat. cbn [pages_from map]. split; [exact Hs |]. split.
      * intros k Hk. injection Hk as <-. cbn [pages_from flat_map]. unfold len at 2. cbn. lia.
      * intros Hshort. exists 0%nat, p. repeat split.
        apply (page_stop _ _ _ _ Hm Hp). lia.
  - injection H as <-. exists 0%nat. cbn [pages_from map]. rewrite app_nil_r.
    split; [reflexivity |]. split; [discriminate | lia].
Qed.

End WhyItStops.

(** A call panics exactly when its quota is at least one and the runtime
    refuses the capacity of the result slice. *)
Lemma Search_with_run (makeslice : Z -> bool)
  (searchPage : Z -> Z -> State -> (bool * option error) * State)
  (M : Z) (fuel : nat) (run : Run) :
  Search_with makeslice searchPage fuel M = Some run ->
  (run = Panics <-> 1 <= M /\ makeslice M = false).
Proof.
  unfold Search_with. destruct (Z.leb_spec M 0) as [Hle | Hgt].
  - intros H. injection H as <-. split; [discriminate | lia].
  - destruct (makeslice M); cbn [negb].
    + destruct (Search_loop searchPage fuel M 1 (mkState [] [])) as [[[e | u] st] |];
        intros H; [injection H as <- | injection H as <- | discriminate];
        (split; [discriminate | intros [_ Hf]; discriminate]).
    + intros H. injection H as <-. split; [intros _; split; [lia | reflexivity] | reflexivity].
Qed.

(** A call that returns, read as a whole: the requests it sent are those of
    [n] successive pages from page 1, none for an invalid quota and at least
    one otherwise; every page before the last went through without error;
    an error returned is the one of the last page, and comes with the nil
    slice. *)
Lemma Search_with_trace (makeslice : Z -> bool)
  (searchPage : Z -> Z -> State -> (bool * option error) * State)
  (request_of : Z -> Request) (page_error : Z -> option error)
  (M : Z) (fuel : nat) (o : Outcome) :
  in_int M ->
  (forall m p st, 1 <= m <= max_int ->
     exists b added,
       searchPage m p st =
         ((b, page_error p), mkState (results st ++ added) (sent st ++ [request_of p])) /\
       len added <= m) ->
  Search_with makeslice searchPage fuel M = Some (Returns o) ->
  exists n,
    (n <= fuel)%nat /\
    requests o = map request_of (pages_from 1 n) /\
    (n = 0%nat <-> M <= 0) /\
    match err o with
    | Some e =>
        returned o = [] /\
        (1 <= M ->
         exists k pl,
           n = S k /\ pages_from 1 n = pages_from 1 k ++ [pl] /\
           Forall (fun q => page_error q = None) (pages_from 1 k) /\
           page_error pl = Some e)
    | None => Forall (fun q => page_error q = None) (pages_from 1 n)
    end.
Proof.
  intros HM Hpage. unfold Search_with.
  destruct (Z.leb_spec M 0) as [Hle | Hgt].
  - intros H. injection H as <-. exists 0%nat. cbn.
    repeat split; lia.
  - destruct (negb (makeslice M)); [discriminate |].
    destruct (Search_loop searchPage fuel M 1 (mkState [] [])) as [[out st'] |] eqn:Hl;
      [| discriminate].
    destruct (Search_loop_trace searchPage request_of page_error M HM Hpage fuel _ _ _ _ Hl)
      as (n & Hn & Hs & Hpos & Hout).
    cbn [sent results app] in Hs, Hpos. specialize (Hpos ltac:(cbn; lia)).
    destruct out as [e | u]; intros H; injection H as <-; exists n; cbn [requests err returned];
      (split; [exact Hn |]); (split; [exact Hs |]); (split; [lia |]).
    + split; [reflexivity |]. intros _. exact Hout.
    + exact Hout.
Qed.

Lemma omdb_page_outcome (os : Omdb.OmdbSearcher) (ctx : Context) (query : string) :
  forall m p st, 1 <= m <= max_int ->
    exists b added,
      Omdb.searchPage os ctx query m p st =
        ((b, OmdbMore.page_error os ctx query p),
         mkState (results st ++ added) (sent st ++ [Omdb.request os ctx query p])) /\
      len added <= m.
Proof.
  intros m p st Hm.
  destruct (omdb_searchPage_outcome os ctx query m p st Hm) as (b & added & H & Hl & _).
  now exists b, added.
Qed.

Lemma tmdb_page_outcome (os : Tmdb.TmdbSearcher) (ctx : Context) (query : string) :
  forall m p st, 1 <= m <= max_int ->
    exists b added,
      Tmdb.searchPage os ctx query m p st =
        ((b, TmdbMore.page_error os ctx query p),
         mkState (results st ++ added) (sent st ++ [Tmdb.request os ctx query p])) /\
      len added <= m.
Proof.
  intros m p st Hm.
  destruct (tmdb_searchPage_outcome os ctx query m p st Hm) as (b & added & H & Hl & _).
  now exists b, added.
Qed.

(** X3: a call of [Search] of either adapter with a valid quota that
    returns an error returns the nil slice with it; the request that failed
    is the last one it sent, every page before it went through without
    error, and the error returned is the error of that last page fetch, as
    it is (a transport error of the client, cancellation included, is handed
    back unchanged). *)
Theorem X3_failed_call
  (makeslice : Z -> bool)
  (oo : Omdb.OmdbSearcher) (ot : Tmdb.TmdbSearcher) (ctx : Context) (query : string)
  (maxResults : Z) (fuel : nat) :
  in_int maxResults -> 1 <= maxResults ->
  (forall o e, Omdb.Search makeslice fuel oo ctx query maxResults = Some (Returns o) ->
     err o = Some e ->
     returned o = [] /\
     exists k pl,
       requests o = map (Omdb.request oo ctx query) (pages_from 1 k ++ [pl]) /\
       pages_from 1 (S k) = pages_from 1 k ++ [pl] /\
       Forall (fun q => OmdbMore.page_error oo ctx query q = None) (pages_from 1 k) /\
       OmdbMore.page_error oo ctx query pl = Some e) /\
  (forall o e, Tmdb.Search makeslice fuel ot ctx query maxResults = Some (Returns o) ->
     err o = Some e ->
     returned o = [] /\
     exists k pl,
       requests o = map (Tmdb.request ot ctx query) (pages_from 1 k ++ [pl]) /\
       pages_from 1 (S k) = pages_from 1 k ++ [pl] /\
       Forall (fun q => TmdbMore.page_error ot ctx query q = None) (pages_from 1 k) /\
       TmdbMore.page_error ot ctx query pl = Some e).
Proof.
  intros HM H1. split; intros o e Ho He.
  - destruct (Search_with_trace _ _ _ _ _ _ _ HM (omdb_page_outcome oo ctx query) Ho)
      as (n & _ & Hq & _ & Hout).
    rewrite He in Hout. destruct Hout as (Hnil & Hlast).
    destruct (Hlast H1) as (k & pl & -> & Hpl & Hok & Hpe).
    split; [exact Hnil |]. exists k, pl. rewrite <- Hpl. now repeat split.
  - destruct (Search_with_trace _ _ _ _ _ _ _ HM (tmdb_page_outcome ot ctx query) Ho)
      as (n & _ & Hq & _ & Hout).
    rewrite He in Hout. destruct Hout as (Hnil & Hlast).
    destruct (Hlast H1) as (k & pl & -> & Hpl & Hok & Hpe).
    split; [exact Hnil |]. exists k, pl. rewrite <- Hpl. now repeat split.
Qed.

(** The fixture of [TestTmdbSearcher_Search_NotAuthorized]. *)
Lemma X3_failed_call_witness :
  in_int 5 /\ 1 <= 5 /\
  returned (mkOutcome []
              (Some (Errorf "search request failed: %s"
                       (ArgString "Invalid API key: You must be granted a valid key.")))
              [Tmdb.request Fixtures.tmdb_not_authorized Background "Test" 1]) = [] /\
  exists k pl,
    [Tmdb.request Fixtures.tmdb_not_authorized Background "Test" 1] =
      map (Tmdb.request Fixtures.tmdb_not_authorized Background "Test") (pages_from 1 k ++ [pl]) /\
    TmdbMore.page_error Fixtures.tmdb_not_authorized Background "Test" pl =
      Some (Errorf "search request failed: %s"
              (ArgString "Invalid API key: You must be granted a valid key.")).
Proof.
  assert (H5 : in_int 5) by (unfold in_int, min_int, max_int; lia).
  assert (H1 : 1 <= 5) by lia.
  split; [exact H5 |]. split; [exact H1 |].
  destruct (proj2 (X3_failed_call Fixtures.makeslice_amd64 Fixtures.omdb_paginated
                     Fixtures.tmdb_not_authorized
                     Background "Test" 5 1 H5 H1) _ _ eq_refl eq_refl)
    as (Hnil & k & pl & Hq & _ & _ & Hpe).
  split; [exact Hnil |]. exists k, pl. split; [exact Hq | exact Hpe].
Defined.

Lemma omdb_request_well_formed (os : Omdb.OmdbSearcher) (ctx : Context) (query : string)
  (p : Z) :
  OmdbMore.well_formed_request os ctx query (Omdb.request os ctx query p).
Proof. unfold OmdbMore.well_formed_request. cbn. repeat split. eexists. reflexivity. Qed.

Lemma tmdb_request_well_formed (os : Tmdb.TmdbSearcher) (ctx : Context) (query : string)
  (p : Z) :
  TmdbMore.well_formed_request os ctx query (Tmdb.request os ctx query p).
Proof.
  unfold TmdbMore.well_formed_request. cbn. rewrite append_empty.
  repeat split. eexists. reflexivity.
Qed.

(** X4: a call of [Search] of either adapter panics, in [make] and before
    any request, exactly when its quota is at least one and the runtime
    refuses a slice of that capacity.  A call that returns, with or without
    an error, sent the requests of pages 1, 2, ..., each page number the
    increment of the one before, none at all for a quota that is not
    positive and at least one otherwise; every request is a GET of the
    adapter's endpoint under the caller's context, with the caller's query
    and the searcher's key (a query parameter for OMDB; for TMDB the header
    "Authorization" with the bearer key, followed by the header "Accept",
    the canonical form of the key "accept" that the code adds). *)
Theorem X4_requests_of_a_call
  (makeslice : Z -> bool)
  (oo : Omdb.OmdbSearcher) (ot : Tmdb.TmdbSearcher) (ctx : Context) (query : string)
  (maxResults : Z) (fuel : nat) :
  in_int maxResults ->
  (forall run, Omdb.Search makeslice fuel oo ctx query maxResults = Some run ->
     (run = Panics <-> 1 <= maxResults /\ makeslice maxResults = false) /\
     forall o, run = Returns o ->
       exists n,
         (n <= fuel)%nat /\
         requests o = map (Omdb.request oo ctx query) (pages_from 1 n) /\
         (n = 0%nat <-> maxResults <= 0) /\
         Forall (OmdbMore.well_formed_request oo ctx query) (requests o)) /\
  (forall run, Tmdb.Search makeslice fuel ot ctx query maxResults = Some run ->
     (run = Panics <-> 1 <= maxResults /\ makeslice maxResults = false) /\
     forall o, run = Returns o ->
       exists n,
         (n <= fuel)%nat /\
         requests o = map (Tmdb.request ot ctx query) (pages_from 1 n) /\
         (n = 0%nat <-> maxResults <= 0) /\
         Forall (TmdbMore.well_formed_request ot ctx query) (requests o)).
Proof.
  intros HM. split; intros run Hrun; (split; [exact (Search_with_run _ _ _ _ _ Hrun) |]);
    intros o ->.
  - destruct (Search_with_trace _ _ _ _ _ _ _ HM (omdb_page_outcome oo ctx query) Hrun)
      as (n & Hn & Hq & H0 & _).
    exists n. repeat split; try assumption; try apply H0.
    rewrite Hq. apply Forall_map, Forall_forall. intros p _.
    apply omdb_request_well_formed.
  - destruct (Search_with_trace _ _ _ _ _ _ _ HM (tmdb_page_outcome ot ctx query) Hrun)
      as (n & Hn & Hq & H0 & _).
    exists n. repeat split; try assumption; try apply H0.
    rewrite Hq. apply Forall_map, Forall_forall. intros p _.
    apply tmdb_request_well_formed.
Qed.

(** The pagination fixture under a context that is not cancelled; and a
    quota whose slice of 96-byte results is beyond the address space. *)
Lemma X4_requests_of_a_call_witness :
  in_int 5 /\
  (exists n,
    (n <= 2)%nat /\
    [ Omdb.request Fixtures.omdb_paginated (WithCancel Background false) "Test" 1;
      Omdb.request Fixtures.omdb_paginated (WithCancel Background false) "Test" 2 ] =
      map (Omdb.request Fixtures.omdb_paginated (WithCancel Background false) "Test")
        (pages_from 1 n)) /\
  Forall (TmdbMore.well_formed_request Fixtures.tmdb_one_page (WithCancel Background false)
            "Test")
    [ Tmdb.request Fixtures.tmdb_one_page (WithCancel Background false) "Test" 1 ].
Proof.
  assert (H5 : in_int 5) by (unfold in_int, min_int, max_int; lia).
  split; [exact H5 |].
  destruct (X4_requests_of_a_call Fixtures.makeslice_amd64 Fixtures.omdb_paginated
              Fixtures.tmdb_one_page (WithCancel Background false) "Test" 5 2 H5)
    as (Ho & Ht).
  split.
  - destruct (proj2 (Ho _ eq_refl) _ eq_refl) as (n & Hn & Hq & _).
    exists n. split; [exact Hn | exact Hq].
  - destruct (proj2 (Ht _ eq_refl) _ eq_refl) as (n & _ & _ & _ & Hw). exact Hw.
Defined.

(** ** Why a successful call stopped *)

Lemma omdb_page_stop (os : Omdb.OmdbSearcher) (ctx : Context) (query : string) :
  forall m p st st',
    1 <= m <= max_int ->
    Omdb.searchPage os ctx query m p st = ((false, None), st') ->
    len (results st') < len (results st) + m ->
    OmdbMore.reports_no_more os ctx query p (len (results st')).
Proof.
  intros m p st st' Hm H Hshort. unfold OmdbMore.reports_no_more.
  destruct (Omdb.client os (Omdb.request os ctx query p)) as [e | [status [e | r]]] eqn:Hc.
  - unfold Omdb.searchPage in H. destruct (Z.leb_spec m 0); [lia |].
    rewrite Hc in H. discriminate.
  - unfold Omdb.searchPage in H. destruct (Z.leb_spec m 0); [lia |].
    rewrite Hc in H. discriminate.
  - exists status, r. split; [reflexivity |].
    rewrite (omdb_searchPage_decoded _ _ _ _ _ _ _ _ Hm Hc) in H. cbn zeta in H.
    unfold OmdbSpec.notFound in H.
    destruct (String.eqb_spec (Omdb.Error r) "Movie not found!") as [HE | HE]; [now left |].
    destruct (negb (String.eqb (Omdb.Error r) "")); [discriminate |].
    destruct (Atoi (Omdb.TotalResults r)) as [T | e]; [| discriminate].
    right. exists T. split; [reflexivity |].
    injection H as Hb <-. cbn [results] in *.
    rewrite len_app, len_firstn, len_map in Hshort by lia.
    apply andb_false_iff in Hb as [Hb | Hb].
    + apply Z.ltb_ge in Hb. exact Hb.
    + assert (Hpos : ~ 0 < remaining_after m (len (Omdb.Result r))).
      { intros Hc'. apply Z.gtb_lt in Hc'. congruence. }
      rewrite remaining_after_pos in Hpos. lia.
Qed.

Lemma tmdb_page_stop (os : Tmdb.TmdbSearcher) (ctx : Context) (query : string) :
  forall m p st st',
    1 <= m <= max_int ->
    Tmdb.searchPage os ctx query m p st = ((false, None), st') ->
    len (results st') < len (results st) + m ->
    TmdbMore.reports_no_more os ctx query p.
Proof.
  intros m p st st' Hm H Hshort. unfold TmdbMore.reports_no_more.
  destruct (Tmdb.client os (Tmdb.request os ctx query p)) as [e | [status [e | r]]] eqn:Hc.
  - unfold Tmdb.searchPage in H. destruct (Z.leb_spec m 0); [lia |].
    rewrite Hc in H. discriminate.
  - unfold Tmdb.searchPage in H. destruct (Z.leb_spec m 0); [lia |].
    rewrite Hc in H. discriminate.
  - rewrite (tmdb_searchPage_decoded _ _ _ _ _ _ _ _ Hm Hc) in H. cbn zeta in H.
    destruct (Z.eqb_spec status StatusOK) as [-> | Hs]; [| discriminate].
    cbn [negb orb] in H.
    match type of H with (if ?c then _ else _) = _ => destruct c end; [discriminate |].
    exists r. split; [reflexivity |].
    injection H as Hb <-. cbn [results] in *.
    rewrite len_app, len_firstn in Hshort by lia.
    apply andb_false_iff in Hb as [Hb | Hb].
    + apply Z.ltb_ge in Hb. exact Hb.
    + assert (Hpos : ~ 0 < remaining_after m (len (TmdbSpec.mapped (Tmdb.Result r)))).
      { intros Hc'. apply Z.gtb_lt in Hc'. congruence. }
      rewrite remaining_after_pos in Hpos. lia.
Qed.

Lemma Search_with_stops (makeslice : Z -> bool)
  (searchPage : Z -> Z -> State -> (bool * option error) * State)
  (request_of : Z -> Request) (page_results : Z -> list SearchResult)
  (no_more : Z -> Z -> Prop) (M : Z) (fuel : nat) (o : Outcome) :
  in_int M ->
  (forall m p st st' b, 1 <= m <= max_int ->
     searchPage m p st = ((b, None), st') ->
     sent st' = sent st ++ [request_of p] /\
     results st' = results st ++ firstn (Z.to_nat m) (page_results p) /\
     (b = true -> len (page_results p) < m)) ->
  (forall m p st st', 1 <= m <= max_int ->
     searchPage m p st = ((false, None), st') ->
     len (results st') < len (results st) + m ->
     no_more p (len (results st'))) ->
  Search_with makeslice searchPage fuel M = Some (Returns o) ->
  err o = None ->
  exists n,
    requests o = map request_of (pages_from 1 n) /\
    (forall k, n = S k -> len (flat_map page_results (pages_from 1 k)) < M) /\
    (len (returned o) < M ->
     exists k pl, n = S k /\ pages_from 1 n = pages_from 1 k ++ [pl] /\
                  no_more pl (len (returned o))).
Proof.
  intros HM Hpage Hstop. unfold Search_with.
  destruct (Z.leb_spec M 0) as [Hle | Hgt]; [intros H; injection H as <-; discriminate |].
  destruct (negb (makeslice M)); [discriminate |].
  destruct (Search_loop searchPage fuel M 1 (mkState [] [])) as [[[e | []] st'] |] eqn:Hl;
    [intros H; injection H as <-; discriminate | | discriminate].
  intros H _. injection H as <-. cbn [requests returned].
  destruct (Search_loop_stops searchPage request_of page_results no_more M HM Hpage Hstop
              fuel _ _ _ Hl) as (n & Hs & Hbefore & Hlast).
  exists n. cbn [sent results app] in *. split; [exact Hs |]. split; [| exact Hlast].
  intros k Hk. specialize (Hbefore k Hk). unfold len at 1 in Hbefore. cbn in Hbefore. lia.
Qed.

(** X5: a call of [Search] of either adapter that returns no error never
    fetched a page once the quota was met: the pages before the last one
    fetched contribute, together, fewer than [maxResults] results. *)
Theorem X5_no_fetch_past_the_quota
  (makeslice : Z -> bool)
  (oo : Omdb.OmdbSearcher) (ot : Tmdb.TmdbSearcher) (ctx : Context) (query : string)
  (maxResults : Z) (fuel : nat) :
  in_int maxResults ->
  (forall o, Omdb.Search makeslice fuel oo ctx query maxResults = Some (Returns o) ->
     err o = None ->
     exists n,
       requests o = map (Omdb.request oo ctx query) (pages_from 1 n) /\
       forall k, n = S k ->
         len (flat_map (OmdbSpec.page_results oo ctx query) (pages_from 1 k)) < maxResults) /\
  (forall o, Tmdb.Search makeslice fuel ot ctx query maxResults = Some (Returns o) ->
     err o = None ->
     exists n,
       requests o = map (Tmdb.request ot ctx query) (pages_from 1 n) /\
       forall k, n = S k ->
         len (flat_map (TmdbSpec.page_results ot ctx query) (pages_from 1 k)) < maxResults).
Proof.
  intros HM. split; intros o Ho He.
  - destruct (Search_with_stops _ _ _ _ _ _ _ _ HM (omdb_searchPage_no_error oo ctx query)
                (omdb_page_stop oo ctx query) Ho He) as (n & Hq & Hbefore & _).
    now exists n.
  - destruct (Search_with_stops _ _ (Tmdb.request ot ctx query) _
                (fun p _ => TmdbMore.reports_no_more ot ctx query p) _ _ _ HM
                (tmdb_searchPage_no_error ot ctx query)
                (tmdb_page_stop ot ctx query) Ho He) as (n & Hq & Hbefore & _).
    now exists n.
Qed.

(** The pagination fixture with a quota of three: the first page fills it
    and the second is not fetched. *)
Lemma X5_no_fetch_past_the_quota_witness :
  in_int 3 /\
  exists n,
    [Omdb.request Fixtures.omdb_paginated Background "Test" 1] =
      map (Omdb.request Fixtures.omdb_paginated Background "Test") (pages_from 1 n) /\
    forall k, n = S k ->
      len (flat_map (OmdbSpec.page_results Fixtures.omdb_paginated Background "Test")
             (pages_from 1 k)) < 3.
Proof.
  assert (H3 : in_int 3) by (unfold in_int, min_int, max_int; lia).
  split; [exact H3 |].
  exact (proj1 (X5_no_fetch_past_the_quota Fixtures.makeslice_amd64
                   Fixtures.omdb_paginated Fixtures.tmdb_one_page
                  Background "Test" 3 2 H3) _ eq_refl eq_refl).
Defined.

(** X6: a call of [Search] that returns no error and fewer results than
    [maxResults] stopped because the provider said there is no more: the
    last response fetched is, for OMDB, the not-found signal or one whose
    [totalResults] is at most the number of results returned, and for TMDB
    one whose [total_pages] is at most its page number. *)
Theorem X6_short_result
  (makeslice : Z -> bool)
  (oo : Omdb.OmdbSearcher) (ot : Tmdb.TmdbSearcher) (ctx : Context) (query : string)
  (maxResults : Z) (fuel : nat) :
  in_int maxResults ->
  (forall o, Omdb.Search makeslice fuel oo ctx query maxResults = Some (Returns o) ->
     err o = None ->
     len (returned o) < maxResults ->
     exists k pl,
       requests o = map (Omdb.request oo ctx query) (pages_from 1 k ++ [pl]) /\
       OmdbMore.reports_no_more oo ctx query pl (len (returned o))) /\
  (forall o, Tmdb.Search makeslice fuel ot ctx query maxResults = Some (Returns o) ->
     err o = None ->
     len (returned o) < maxResults ->
     exists k pl,
       requests o = map (Tmdb.request ot ctx query) (pages_from 1 k ++ [pl]) /\
       TmdbMore.reports_no_more ot ctx query pl).
Proof.
  intros HM. split; intros o Ho He Hshort.
  - destruct (Search_with_stops _ _ _ _ _ _ _ _ HM (omdb_searchPage_no_error oo ctx query)
                (omdb_page_stop oo ctx query) Ho He) as (n & Hq & _ & Hlast).
    destruct (Hlast Hshort) as (k & pl & -> & Hpl & Hno).
    exists k, pl. rewrite <- Hpl. now split.
  - destruct (Search_with_stops _ _ (Tmdb.request ot ctx query) _
                (fun p _ => TmdbMore.reports_no_more ot ctx query p) _ _ _ HM
                (tmdb_searchPage_no_error ot ctx query)
                (tmdb_page_stop ot ctx query) Ho He) as (n & Hq & _ & Hlast).
    destruct (Hlast Hshort) as (k & pl & -> & Hpl & Hno).
    exists k, pl. rewrite <- Hpl. now split.
Qed.

(** The TMDB fixture: two results for a quota of five, and a single page
    that says it is the last. *)
Lemma X6_short_result_witness :
  in_int 5 /\
  exists k pl,
    [Tmdb.request Fixtures.tmdb_one_page Background "Test" 1] =
      map (Tmdb.request Fixtures.tmdb_one_page Background "Test") (pages_from 1 k ++ [pl]) /\
    TmdbMore.reports_no_more Fixtures.tmdb_one_page Background "Test" pl.
Proof.
  assert (H5 : in_int 5) by (unfold in_int, min_int, max_int; lia).
  split; [exact H5 |].
  refine (proj2 (X6_short_result Fixtures.makeslice_amd64
                   Fixtures.omdb_paginated Fixtures.tmdb_one_page
                   Background "Test" 5 1 H5) _ eq_refl eq_refl _).
  vm_compute. reflexivity.
Defined.

(** ** Where the results come from *)

Lemma In_firstn_In {A : Type} (n : nat) (l : list A) (x : A) :
  In x (firstn n l) -> In x l.
Proof.
  revert l. induction n as [| n IH]; intros l H; [destruct H |].
  destruct l as [| y l]; [destruct H |].
  destruct H as [-> | H]; [now left | right; now apply IH].
Qed.

(** X7: every result a successful call returns was made from an item of a
    page the call fetched.  An OMDB result is the item field by field, with
    an empty [ProviderId].  A TMDB result is made from an item whose native
    type is "movie" or "tv": its [Type] is [Movie] or [Series] and nothing
    else, and its [Title] is the item's title, or the item's name when the
    title is empty. *)
Theorem X7_results_come_from_pages
  (makeslice : Z -> bool)
  (oo : Omdb.OmdbSearcher) (ot : Tmdb.TmdbSearcher) (ctx : Context) (query : string)
  (maxResults : Z) (fuel : nat) :
  in_int maxResults ->
  (forall o r, Omdb.Search makeslice fuel oo ctx query maxResults = Some (Returns o) ->
     err o = None ->
     In r (returned o) ->
     exists req status resp item,
       In req (requests o) /\
       Omdb.client oo req = inr (mkResponse status (inr resp)) /\
       In item (Omdb.Result resp) /\
       r = mkSearchResult (Omdb.item_Title item) (Omdb.item_Year item)
             (Omdb.item_ImdbID item) "" (Omdb.item_PosterURL item) (Omdb.item_Type item)) /\
  (forall o r, Tmdb.Search makeslice fuel ot ctx query maxResults = Some (Returns o) ->
     err o = None ->
     In r (returned o) ->
     exists req status resp item,
       In req (requests o) /\
       Tmdb.client ot req = inr (mkResponse status (inr resp)) /\
       In item (Tmdb.Result resp) /\
       (Tmdb.item_Type item = "movie" /\ Type_ r = Movie \/
        Tmdb.item_Type item = "tv" /\ Type_ r = Series) /\
       Title r = (if String.eqb (Tmdb.item_Title item) "" then Tmdb.item_Name item
                  else Tmdb.item_Title item) /\
       Year r = Tmdb.item_Year item /\ ImdbID r = Tmdb.item_ImdbID item /\
       PosterURL r = Tmdb.item_PosterURL item).
Proof.
  intros HM. split; intros o r Ho He Hin.
  - destruct (Search_with_no_error makeslice (Omdb.searchPage oo ctx query)
                (Omdb.request oo ctx query)
                (OmdbSpec.page_results oo ctx query) maxResults HM
                (omdb_searchPage_no_error oo ctx query) fuel o Ho He) as (n & _ & Hq & Hr).
    rewrite Hr in Hin. apply In_firstn_In, in_flat_map in Hin as (q & Hq' & Hin).
    unfold OmdbSpec.page_results in Hin.
    destruct (Omdb.client oo (Omdb.request oo ctx query q)) as [e | [status [e | resp]]] eqn:Hc;
      try destruct Hin.
    cbn [Body] in Hin.
    destruct (String.eqb (Omdb.Error resp) OmdbSpec.notFound); [destruct Hin |].
    apply in_map_iff in Hin as (item & <- & Hitem).
    exists (Omdb.request oo ctx query q), status, resp, item.
    repeat split; [rewrite Hq; now apply in_map | exact Hc | exact Hitem].
  - destruct (Search_with_no_error makeslice (Tmdb.searchPage ot ctx query)
                (Tmdb.request ot ctx query)
                (TmdbSpec.page_results ot ctx query) maxResults HM
                (tmdb_searchPage_no_error ot ctx query) fuel o Ho He) as (n & _ & Hq & Hr).
    rewrite Hr in Hin. apply In_firstn_In, in_flat_map in Hin as (q & Hq' & Hin).
    unfold TmdbSpec.page_results in Hin.
    destruct (Tmdb.client ot (Tmdb.request ot ctx query q)) as [e | [status [e | resp]]] eqn:Hc;
      try destruct Hin.
    cbn [Body] in Hin. unfold TmdbSpec.mapped in Hin.
    apply in_flat_map in Hin as (item & Hitem & Hin).
    exists (Tmdb.request ot ctx query q), status, resp, item.
    split; [rewrite Hq; now apply in_map |]. split; [exact Hc |]. split; [exact Hitem |].
    unfold Tmdb.resultType_of in Hin.
    destruct (String.eqb_spec (Tmdb.item_Type item) "movie") as [Hty | Hty].
    + destruct Hin as [<- | []]. cbn. unfold Tmdb.resultTitle_of.
      destruct (String.eqb (Tmdb.item_Title item) ""); cbn; repeat split; now left.
    + destruct (String.eqb_spec (Tmdb.item_Type item) "tv") as [Hty' | Hty'];
        [| destruct Hin].
      destruct Hin as [<- | []]. cbn. unfold Tmdb.resultTitle_of.
      destruct (String.eqb (Tmdb.item_Title item) ""); cbn; repeat split; now right.
Qed.

(** The TMDB fixture: the result with the title "c" comes from the show. *)
Lemma X7_results_come_from_pages_witness :
  in_int 5 /\
  exists req status resp item,
    Tmdb.client Fixtures.tmdb_one_page req = inr (mkResponse status (inr resp)) /\
    In item (Tmdb.Result resp) /\
    (Tmdb.item_Type item = "movie" /\
     Type_ (Tmdb.convert (Fixtures.tmdb_item "c" "tv" 13) Series) = Movie \/
     Tmdb.item_Type item = "tv" /\
     Type_ (Tmdb.convert (Fixtures.tmdb_item "c" "tv" 13) Series) = Series).
Proof.
  assert (H5 : in_int 5) by (unfold in_int, min_int, max_int; lia).
  split; [exact H5 |].
  destruct (proj2 (X7_results_come_from_pages Fixtures.makeslice_amd64
                   Fixtures.omdb_paginated Fixtures.tmdb_one_page
                     Background "Test" 5 1 H5) _
              (Tmdb.convert (Fixtures.tmdb_item "c" "tv" 13) Series) eq_refl eq_refl)
    as (req & status & resp & item & _ & Hc & Hitem & Hty & _).
  - right. left. reflexivity.
  - exists req, status, resp, item. repeat split; assumption.
Defined.

(** ** What the adapters do not look at *)

Lemma Search_loop_same (sp sp' : Z -> Z -> State -> (bool * option error) * State)
  (M : Z) (fuel : nat) :
  (forall m p st, sp m p st = sp' m p st) ->
  forall p st, Search_loop sp fuel M p st = Search_loop sp' fuel M p st.
Proof.
  intros Hsame. induction fuel as [| fuel IH]; intros p st; [reflexivity |].
  cbn [Search_loop]. rewrite Hsame.
  destruct (len (results st) <? M); [| reflexivity].
  destruct (sp' (int_sub M (len (results st))) p st) as [[b [e |]] st1]; [reflexivity |].
  destruct (negb b); [reflexivity | apply IH].
Qed.

(** X8: the OMDB adapter never looks at the HTTP status code: behind a
    client whose status codes are replaced in any way, [Search] sends the
    same requests and returns the same results or the same error. *)
Theorem X8_omdb_ignores_status
  (makeslice : Z -> bool) (f : Z -> Z) (os : Omdb.OmdbSearcher) (ctx : Context) (query : string)
  (maxResults : Z) (fuel : nat) :
  Omdb.Search makeslice fuel (OmdbMore.with_status f os) ctx query maxResults =
  Omdb.Search makeslice fuel os ctx query maxResults.
Proof.
  unfold Omdb.Search, Search_with.
  rewrite (Search_loop_same (Omdb.searchPage (OmdbMore.with_status f os) ctx query)
             (Omdb.searchPage os ctx query)); [reflexivity |].
  intros m p st. unfold Omdb.searchPage.
  change (Omdb.request (OmdbMore.with_status f os) ctx query p)
    with (Omdb.request os ctx query p).
  cbn [OmdbMore.with_status Omdb.client].
  destruct (Omdb.client os (Omdb.request os ctx query p)) as [e | resp]; reflexivity.
Qed.

(** X9: the TMDB adapter never looks at [total_results]: behind a client
    whose [total_results] are replaced in any way, [Search] sends the same
    requests and returns the same results or the same error. *)
Theorem X9_tmdb_ignores_total_results
  (makeslice : Z -> bool) (f : Z -> Z) (os : Tmdb.TmdbSearcher) (ctx : Context) (query : string)
  (maxResults : Z) (fuel : nat) :
  Tmdb.Search makeslice fuel (TmdbMore.with_total_results f os) ctx query maxResults =
  Tmdb.Search makeslice fuel os ctx query maxResults.
Proof.
  unfold Tmdb.Search, Search_with.
  rewrite (Search_loop_same (Tmdb.searchPage (TmdbMore.with_total_results f os) ctx query)
             (Tmdb.searchPage os ctx query)); [reflexivity |].
  intros m p st. unfold Tmdb.searchPage.
  change (Tmdb.request (TmdbMore.with_total_results f os) ctx query p)
    with (Tmdb.request os ctx query p).
  cbn [TmdbMore.with_total_results Tmdb.client].
  destruct (Tmdb.client os (Tmdb.request os ctx query p)) as [e | [status [e | r]]];
    reflexivity.
Qed.

(** ** Numbers as text: [%d] and [strconv.Atoi] *)

From Stdlib Require DecimalPos DecimalZ.

Lemma of_uint_acc_val (d : Decimal.uint) :
  forall acc, Z.pos (Pos.of_uint_acc d acc) = DecimalValue.uint_val d (Z.pos acc).
Proof.
  induction d as [| d IH | d IH | d IH | d IH | d IH | d IH | d IH | d IH | d IH | d IH];
    intros acc; cbn [Pos.of_uint_acc DecimalValue.uint_val]; [reflexivity | ..];
    rewrite IH; f_equal; lia.
Qed.

Lemma of_uint_val (d : Decimal.uint) :
  Z.of_N (Pos.of_uint d) = DecimalValue.uint_val d 0.
Proof.
  induction d as [| d IH | d IH | d IH | d IH | d IH | d IH | d IH | d IH | d IH | d IH];
    cbn [Pos.of_uint DecimalValue.uint_val]; [reflexivity | exact IH | ..];
    cbn [Z.of_N]; rewrite of_uint_acc_val; reflexivity.
Qed.

Lemma digits_value_string_of_uint (d : Decimal.uint) :
  forall acc,
    digits_value (NilEmpty.string_of_uint d) acc = Some (DecimalValue.uint_val d acc).
Proof.
  induction d as [| d IH | d IH | d IH | d IH | d IH | d IH | d IH | d IH | d IH | d IH];
    intros acc; cbn [NilEmpty.string_of_uint digits_value DecimalValue.uint_val];
    [reflexivity | ..];
    match goal with
    | |- context [digit_of ?c] =>
        let v := eval vm_compute in (digit_of c) in change (digit_of c) with v
    end;
    cbn iota; rewrite IH; do 2 f_equal; lia.
Qed.

Lemma parse_decimal_unsigned (d : Decimal.uint) :
  d <> Decimal.Nil ->
  parse_decimal (NilZero.string_of_uint d) = Some (DecimalValue.uint_val d 0).
Proof.
  intros Hd. rewrite <- digits_value_string_of_uint.
  destruct d; [contradiction | ..]; reflexivity.
Qed.

Lemma parse_decimal_negative (d : Decimal.uint) :
  d <> Decimal.Nil ->
  parse_decimal (String "-" (NilZero.string_of_uint d))
  = Some (- DecimalValue.uint_val d 0).
Proof.
  intros Hd.
  transitivity (option_map Z.opp (digits_value (NilEmpty.string_of_uint d) 0)).
  - destruct d; [contradiction | ..]; reflexivity.
  - now rewrite digits_value_string_of_uint.
Qed.

(** The decimal text of a number reads back as the number. *)
Lemma parse_decimal_itoa (z : Z) : parse_decimal (itoa z) = Some z.
Proof.
  pose proof (DecimalZ.of_to z) as Hz. unfold itoa.
  destruct z as [| p | p]; [reflexivity | |]; cbn [Z.to_int NilZero.string_of_int] in *;
    unfold Z.of_int, Z.of_uint in Hz.
  - rewrite parse_decimal_unsigned by apply DecimalPos.Unsigned.to_uint_nonnil.
    now rewrite <- of_uint_val, Hz.
  - rewrite parse_decimal_negative by apply DecimalPos.Unsigned.to_uint_nonnil.
    now rewrite <- of_uint_val, Hz.
Qed.

Lemma Atoi_itoa (z : Z) : in_int z -> Atoi (itoa z) = inl z.
Proof.
  intros Hz. apply Atoi_parse_decimal; [apply parse_decimal_itoa | exact Hz].
Qed.

Lemma Sprintf_d_itoa (z : Z) : Fmt.Sprintf_d "%d" z = itoa z.
Proof. unfold Fmt.Sprintf_d. cbn [Fmt.subst_verb Ascii.eqb Bool.eqb]. apply append_empty. Qed.

Lemma itoa_inj (z z' : Z) : itoa z = itoa z' -> z = z'.
Proof.
  intros H. pose proof (parse_decimal_itoa z) as Hz.
  rewrite H, parse_decimal_itoa in Hz. now injection Hz.
Qed.

(** X10: the [page] parameter of a request is the page number in decimal:
    [strconv.Atoi] reads it back as the page number, so the requests for two
    different pages differ, for both adapters. *)
Theorem X10_page_parameter
  (oo : Omdb.OmdbSearcher) (ot : Tmdb.TmdbSearcher) (ctx : Context) (query : string)
  (pageNumber : Z) :
  in_int pageNumber ->
  (exists page,
     req_params (Omdb.request oo ctx query pageNumber) =
       [("apiKey", Omdb.apiKey oo); ("s", query); ("page", page)] /\
     Atoi page = inl pageNumber) /\
  (exists page,
     req_params (Tmdb.request ot ctx query pageNumber) = [("query", query); ("page", page)] /\
     Atoi page = inl pageNumber) /\
  (forall other, Omdb.request oo ctx query other = Omdb.request oo ctx query pageNumber ->
                 other = pageNumber) /\
  (forall other, Tmdb.request ot ctx query other = Tmdb.request ot ctx query pageNumber ->
                 other = pageNumber).
Proof.
  intros Hp. split; [| split; [| split]].
  - eexists. split; [reflexivity |]. rewrite Sprintf_d_itoa. now apply Atoi_itoa.
  - eexists. split; [reflexivity |]. rewrite Sprintf_d_itoa. now apply Atoi_itoa.
  - intros other H. unfold Omdb.request in H. injection H as H.
    rewrite !Sprintf_d_itoa in H. now apply itoa_inj.
  - intros other H. unfold Tmdb.request in H. injection H as H.
    rewrite !Sprintf_d_itoa in H. now apply itoa_inj.
Qed.

Lemma X10_page_parameter_witness :
  in_int 12 /\
  exists page,
    req_params (Omdb.request Fixtures.omdb_paginated Background "Test" 12) =
      [("apiKey", "testkey"); ("s", "Test"); ("page", page)] /\
    Atoi page = inl 12.
Proof.
  assert (H12 : in_int 12) by (unfold in_int, min_int, max_int; lia).
  split; [exact H12 |].
  exact (proj1 (X10_page_parameter Fixtures.omdb_paginated Fixtures.tmdb_one_page
                  Background "Test" 12 H12)).
Defined.

(** X11: the [ProviderId] of a TMDB result is the item's numeric id in
    decimal: [strconv.Atoi] reads it back as the id, and results made from
    items with different ids have different [ProviderId]s. *)
Theorem X11_tmdb_ProviderId
  (item other : Tmdb.tmdbItem) (resultType otherType : ResultType) :
  in_int (Tmdb.item_TmdbId item) ->
  Atoi (ProviderId (Tmdb.convert item resultType)) = inl (Tmdb.item_TmdbId item) /\
  (ProviderId (Tmdb.convert other otherType) = ProviderId (Tmdb.convert item resultType) ->
   Tmdb.item_TmdbId other = Tmdb.item_TmdbId item).
Proof.
  intros Hid. unfold Tmdb.convert. cbn [ProviderId]. rewrite !Sprintf_d_itoa.
  split; [now apply Atoi_itoa | apply itoa_inj].
Qed.

Lemma X11_tmdb_ProviderId_witness :
  in_int 13 /\
  Atoi (ProviderId (Tmdb.convert (Fixtures.tmdb_item "c" "tv" 13) Series)) = inl 13.
Proof.
  assert (H13 : in_int 13) by (unfold in_int, min_int, max_int; lia).
  split; [exact H13 |].
  exact (proj1 (X11_tmdb_ProviderId (Fixtures.tmdb_item "c" "tv" 13)
                  (Fixtures.tmdb_item "a" "movie" 11) Series Movie H13)).
Defined.
